(** * app6.py: a Streamlit quiz over questions produced by a generative model

    The script is embedded shallowly: the values that [json.loads] builds are
    an inductive type of Python values, [generate_crypto_question_google] is a
    function from what the page already shows and from the outcome of the
    model call and of [json.loads] to its result, and one execution of the
    script is a function from the widget inputs and the session state to the
    next session state, with the messages it shows and the way it stops. The
    model, the parser, the user and the random generator are inputs of a
    run. Page layout and the two [time.sleep] calls are left out. *)

From Stdlib Require Import ZArith String Ascii Bool Lia.
From stdpp Require Import base list.

Local Open Scope Z_scope.
#[local] Set Warnings "-register-all".

(** ** Python values *)

(** The values [json.loads] returns, with [PyNone] also standing for the
    [None] the script writes itself. A [str] is the string of its UTF-8
    bytes; a [dict] is its list of items in insertion order, read by the
    first binding of a key. Number literals are the integer ones: a [float]
    is not a value of this type, and with it [NaN], the one value that [in]
    finds in a list (by identity) while [==] holds it equal to nothing. *)
Inductive pyval : Type :=
| PyNone
| PyBool (b : bool)
| PyInt (n : Z)
| PyStr (s : string)
| PyList (l : list pyval)
| PyDict (d : list (string * pyval)).

Module Py.

(** [d.get(k)] on the items of a dict. *)
Fixpoint dict_get {A : Type} (d : list (string * A)) (k : string) : option A :=
  match d with
  | [] => None
  | (k', v) :: d' => if String.eqb k' k then Some v else dict_get d' k
  end.

(** [d[k] = v]: the binding of an existing key is replaced in place, a new
    key is appended. *)
Fixpoint dict_set {A : Type} (d : list (string * A)) (k : string) (v : A)
  : list (string * A) :=
  match d with
  | [] => [(k, v)]
  | (k', v') :: d' =>
      if String.eqb k' k then (k, v) :: d' else (k', v') :: dict_set d' k v
  end.

(** [x == y]. [bool] is a subclass of [int], so [True == 1]; values of
    different kinds are otherwise unequal. *)
Fixpoint eq (x y : pyval) : bool :=
  match x, y with
  | PyNone, PyNone => true
  | PyBool a, PyBool b => Bool.eqb a b
  | PyBool a, PyInt n => Z.eqb (Z.b2z a) n
  | PyInt m, PyBool b => Z.eqb m (Z.b2z b)
  | PyInt m, PyInt n => Z.eqb m n
  | PyStr s, PyStr t => String.eqb s t
  | PyList l, PyList k =>
      (fix go (l k : list pyval) : bool :=
         match l, k with
         | [], [] => true
         | a :: l', b :: k' => eq a b && go l' k'
         | _, _ => false
         end) l k
  | PyDict d, PyDict e =>
      Nat.eqb (length d) (length e) &&
      (fix go (d : list (string * pyval)) : bool :=
         match d with
         | [] => true
         | (k, v) :: d' =>
             match dict_get e k with
             | Some w => eq v w
             | None => false
             end && go d'
         end) d
  | _, _ => false
  end.

(** [x in l] for a list [l]. *)
Definition in_list (x : pyval) (l : list pyval) : bool :=
  existsb (fun e => eq e x) l.

(** [bool(x)], the test of an [if x:]. *)
Definition truthy (x : pyval) : bool :=
  match x with
  | PyNone => false
  | PyBool b => b
  | PyInt n => negb (Z.eqb n 0)
  | PyStr s => negb (String.eqb s "")
  | PyList l => negb (Nat.eqb (length l) 0)
  | PyDict d => negb (Nat.eqb (length d) 0)
  end.

Definition is_none (x : pyval) : bool :=
  match x with PyNone => true | _ => false end.

Definition is_list (x : pyval) : bool :=
  match x with PyList _ => true | _ => false end.

Definition is_dict (x : pyval) : bool :=
  match x with PyDict _ => true | _ => false end.

Definition is_str (x : pyval) : bool :=
  match x with PyStr _ => true | _ => false end.

(** Lists and dicts have no hash: using one as a set element raises
    [TypeError]. *)
Definition hashable (x : pyval) : bool :=
  match x with PyList _ | PyDict _ => false | _ => true end.

(** [sub in s] for strings. *)
Fixpoint str_contains (sub s : string) : bool :=
  String.prefix sub s ||
  match s with
  | EmptyString => false
  | String _ s' => str_contains sub s'
  end.

(** Number of code points of a UTF-8 string: the bytes that are not
    continuation bytes [10xxxxxx]. *)
Definition is_continuation (c : ascii) : bool :=
  let n := Z.of_nat (nat_of_ascii c) in (128 <=? n) && (n <? 192).

Fixpoint str_len (s : string) : Z :=
  match s with
  | EmptyString => 0
  | String c s' => (if is_continuation c then 0 else 1) + str_len s'
  end.

(** [len(x)]; [None] when the value has no length ([TypeError]). *)
Definition len (x : pyval) : option Z :=
  match x with
  | PyStr s => Some (str_len s)
  | PyList l => Some (Z.of_nat (length l))
  | PyDict d => Some (Z.of_nat (length d))
  | _ => None
  end.

(** [key in x]; [None] when [x] is not a container ([TypeError]). *)
Definition contains (x : pyval) (key : string) : option bool :=
  match x with
  | PyDict d => Some (bool_decide (is_Some (dict_get d key)))
  | PyList l => Some (in_list (PyStr key) l)
  | PyStr s => Some (str_contains key s)
  | _ => None
  end.

(** [x[key]] for a string key; [None] when it raises ([KeyError] on a
    dict without the key, [TypeError] on anything that is not a dict). *)
Definition subscript (x : pyval) (key : string) : option pyval :=
  match x with
  | PyDict d => dict_get d key
  | _ => None
  end.





(** [x[i], x[j] = x[j], x[i]]. *)
Definition swap {A : Type} (x : list A) (i j : nat) : list A :=
  match x !! i, x !! j with
  | Some xi, Some xj => <[j := xi]> (<[i := xj]> x)
  | _, _ => x
  end.

(** [random.shuffle(x)]:
    [for i in reversed(range(1, len(x))): j = randbelow(i + 1); swap i j],
    where [rand i] is the raw draw behind [randbelow] at index [i]. *)
Fixpoint shuffle_from {A : Type} (rand : nat -> nat) (i : nat) (x : list A)
  : list A :=
  match i with
  | O => x
  | S i' => shuffle_from rand i' (swap x i (rand i mod (i + 1))%nat)
  end.

Definition shuffle {A : Type} (rand : nat -> nat) (x : list A) : list A :=
  shuffle_from rand (length x - 1)%nat x.

End Py.

(** ** The cleaning of the response text (lines 80-84) *)

Module Text.

(** The rest of [s] after the prefix [p], when [s] starts with [p]. *)
Fixpoint after_prefix (p s : list ascii) : option (list ascii) :=
  match p, s with
  | [], _ => Some s
  | a :: p', b :: s' => if Ascii.eqb a b then after_prefix p' s' else None
  | _ :: _, [] => None
  end.

(** The rest of [s] after the first of [pats] it starts with. *)
Fixpoint after_any (pats : list (list ascii)) (s : list ascii)
  : option (list ascii) :=
  match pats with
  | [] => None
  | p :: pats' =>
      match after_prefix p s with
      | Some rest => Some rest
      | None => after_any pats' s
      end
  end.

(** Leading occurrences of [pats] are removed; [fuel] bounds their number. *)
Fixpoint lstrip_fuel (pats : list (list ascii)) (fuel : nat) (s : list ascii)
  : list ascii :=
  match fuel with
  | O => s
  | S fuel' =>
      match after_any pats s with
      | Some rest => lstrip_fuel pats fuel' rest
      | None => s
      end
  end.

Definition lstrip_by (pats : list (list ascii)) (s : list ascii) : list ascii :=
  lstrip_fuel pats (length s) s.

Definition rstrip_by (pats : list (list ascii)) (s : list ascii) : list ascii :=
  reverse (lstrip_by (map reverse pats) (reverse s)).

(** The characters [str.isspace] holds of, in UTF-8: U+0009 to U+000D,
    U+001C to U+0020, U+0085, U+00A0, U+1680, U+2000 to U+200A, U+2028,
    U+2029, U+202F, U+205F and U+3000. *)
Definition whitespace : list (list ascii) :=
  map (map ascii_of_nat)
    [[9]; [10]; [11]; [12]; [13]; [28]; [29]; [30]; [31]; [32];
     [194; 133]; [194; 160];
     [225; 154; 128];
     [226; 128; 128]; [226; 128; 129]; [226; 128; 130]; [226; 128; 131];
     [226; 128; 132]; [226; 128; 133]; [226; 128; 134]; [226; 128; 135];
     [226; 128; 136]; [226; 128; 137]; [226; 128; 138];
     [226; 128; 168]; [226; 128; 169]; [226; 128; 175];
     [226; 129; 159];
     [227; 128; 128]]%nat.

(** [s.strip()]. *)
Definition strip (s : list ascii) : list ascii :=
  rstrip_by whitespace (lstrip_by whitespace s).

(** [s.startswith(p)] and [s.endswith(p)]. *)
Definition startswith (p s : list ascii) : bool :=
  match after_prefix p s with Some _ => true | None => false end.

Definition endswith (p s : list ascii) : bool :=
  startswith (reverse p) (reverse s).

(** The characters of ["```json"] and of ["```"]. *)
Definition fence_json : list ascii :=
  ["`"; "`"; "`"; "j"; "s"; "o"; "n"]%char.
Definition fence : list ascii := ["`"; "`"; "`"]%char.

(** Lines 80-84 on the characters of [response.text]. The slices [[7:]] and
    [[:-3]] are taken where the seven or three characters they drop are
    those of the fence, one byte each. *)
Definition clean (response_text : list ascii) : list ascii :=
  let json_text := strip response_text in
  let json_text :=
    if startswith fence_json json_text then strip (drop 7 json_text)
    else json_text in
  if endswith fence json_text
  then strip (take (length json_text - 3) json_text)
  else json_text.

End Text.

(** The text handed to [json.loads]. *)
Definition clean_json_text (response_text : string) : string :=
  string_of_list_ascii (Text.clean (list_ascii_of_string response_text)).

(** ** The question generator *)

(** The four [raise ValueError(...)] of the validation, a [ValueError]
    that comes out of the model call or of [response.text], and the one
    [json.loads] raises on an integer literal longer than [int] converts. *)
Inductive value_error : Type :=
| MissingKeys (missing_keys : list string)
| OptionsNotList
| AnswerNotInOptions
| AnswerNotVerdaderoFalso
| FromModelCall
| FromJsonLoads.

(** The three [except] clauses. *)
Inductive exn : Type :=
| JSONDecodeError
| ValueError (e : value_error)
| Exception.

(** What lines 75-87 leave. [model.generate_content] raises (line 75), and
    no name of the function is bound; reading [response.text] raises (line
    76), with [response] bound and [json_text] not; [json.loads] raises
    (line 87), with [question_data] not bound: [JSONDecodeError] on a text
    that is not JSON, a plain [ValueError] on an integer literal of more
    digits than [int] converts, [RecursionError] on a text nested too
    deeply; or the text parses to [question_data]. *)
Inductive model_response : Type :=
| ApiRaises (e : exn)
| TextRaises (e : exn)
| NotJson (response_text : string)
| IntegerTooLong
| NestingTooDeep
| Parsed (question_data : pyval).

(** What the script puts on the page with [st.error], [st.warning] and
    [st.info], and the text area of line 118 with the text it holds. The
    text area has no key: Streamlit identifies it by its label and its
    value, and refuses a second one with the same value in one run. The
    widget of line 119, in a [try] of its own, and the [st.json] of line
    124 are not listed. *)
Inductive ui : Type :=
| error_decode
| text_area_received (json_text : string)
| error_validation (e : value_error)
| error_general
| error_details
| warning_explanation
| error_no_question (max_attempts : Z)
| info_wait.

Definition result (A : Type) : Type := exn + A.
Definition raise {A : Type} (e : exn) : result A := inl e.

#[global] Instance result_ret : MRet result := fun A a => inr a.
#[global] Instance result_bind : MBind result := fun A B k m =>
  match m with
  | inl e => inl e
  | inr a => k a
  end.

(** A Python operation that may raise something other than [ValueError]
    or [JSONDecodeError]. *)
Definition or_raise {A : Type} (o : option A) : result A :=
  match o with
  | Some a => inr a
  | None => inl Exception
  end.

Definition required_keys : list string :=
  ["question"; "type"; "options"; "answer"; "difficulty"; "explanation"]%string.

(** [all(key in question_data for key in keys)]. *)
Fixpoint all_in (question_data : pyval) (keys : list string) : option bool :=
  match keys with
  | [] => Some true
  | key :: keys' =>
      match Py.contains question_data key with
      | None => None
      | Some false => Some false
      | Some true => all_in question_data keys'
      end
  end.

(** [[key for key in keys if key not in question_data]], computed after
    [all_in] has returned, so that [in] does not raise. *)
Definition missing_keys (question_data : pyval) (keys : list string)
  : list string :=
  filter (fun key => Py.contains question_data key <> Some true) keys.

(** [random.shuffle(question_data["options"])]: the list held under
    ["options"] is permuted in place. *)
Definition shuffle_options (rand : nat -> nat) (question_data : pyval)
  : result pyval :=
  match question_data with
  | PyDict d =>
      match Py.dict_get d "options" with
      | Some (PyList options) =>
          mret (PyDict (Py.dict_set d "options" (PyList (Py.shuffle rand options))))
      | _ => raise Exception
      end
  | _ => raise Exception
  end.

(** The body of the [try] from the validation on: the question to return
    and whether the warning on the explanation was shown. *)
Definition validate (rand : nat -> nat) (question_data : pyval)
  : result (pyval * bool) :=
  (all_present ← or_raise (all_in question_data required_keys);
   if negb all_present
   then raise (ValueError (MissingKeys (missing_keys question_data required_keys)))
   else
   options ← or_raise (Py.subscript question_data "options");
   if negb (Py.is_list options)
   then raise (ValueError OptionsNotList)
   else
   type ← or_raise (Py.subscript question_data "type");
   answer ← or_raise (Py.subscript question_data "answer");
   if Py.eq type (PyStr "mc") &&
      negb (match options with PyList l => Py.in_list answer l | _ => false end)
   then raise (ValueError AnswerNotInOptions)
   else
   if Py.eq type (PyStr "tf") &&
      negb (Py.in_list answer [PyStr "Verdadero"; PyStr "Falso"])
   then raise (ValueError AnswerNotVerdaderoFalso)
   else
   explanation ← or_raise (Py.subscript question_data "explanation");
   warned ←
     (if negb (Py.is_str explanation) ||
         match Py.len explanation with Some n => n <? 20 | None => false end
      then shown_len ← or_raise (Py.len explanation); mret true
      else mret false);
   if Py.eq type (PyStr "mc")
   then shuffled ← shuffle_options rand question_data; mret (shuffled, warned)
   else mret (question_data, warned)).

(** The outcome of the [try] body, before the [except] clauses. *)
Definition generate_outcome (response : model_response) (rand : nat -> nat)
  : result (pyval * bool) :=
  match response with
  | ApiRaises e => raise e
  | TextRaises e => raise e
  | NotJson _ => raise JSONDecodeError
  | IntegerTooLong => raise (ValueError FromJsonLoads)
  | NestingTooDeep => raise Exception
  | Parsed question_data => validate rand question_data
  end.

(** Whether [response] and [question_data] were assigned before the [try]
    body was left. *)
Definition response_bound (response : model_response) : bool :=
  match response with ApiRaises _ => false | _ => true end.

Definition question_data_bound (response : model_response) : bool :=
  match response with Parsed _ => true | _ => false end.

(** Whether the page holds the text area of line 118 with this text. *)
Definition text_area_shown (json_text : string) (page : list ui) : bool :=
  existsb (fun element =>
             match element with
             | text_area_received shown_text => String.eqb shown_text json_text
             | _ => false
             end) page.

(** How a call of the function ends: it returns a value ([PyNone] for
    [None]) or an exception leaves it; in both cases after the messages
    shown. *)
Inductive call_result : Type :=
| Returns (value : pyval) (msgs : list ui)
| Raises (msgs : list ui).

Definition returned (r : call_result) : option pyval :=
  match r with
  | Returns value _ => Some value
  | Raises _ => None
  end.

(** [generate_crypto_question_google()], called in a run whose page holds
    [page] so far. The handler of [JSONDecodeError] reads [json_text] (line
    118), bound only when the exception is the one of [json.loads], and
    shows it in a text area, which Streamlit refuses when the page has one
    with the same text; the handler of [ValueError] reads [question_data]
    (line 125, in the [except] of line 124). In the three cases the
    exception raised inside the handler leaves the function. The handler of
    the other exceptions shows the details of line 129 when [response] is
    bound. *)
Definition generate_crypto_question_google (page : list ui)
    (response : model_response) (rand : nat -> nat) : call_result :=
  match generate_outcome response rand with
  | inr (question_data, warned) =>
      Returns question_data (if warned then [warning_explanation] else [])
  | inl JSONDecodeError =>
      match response with
      | NotJson response_text =>
          let json_text := clean_json_text response_text in
          if text_area_shown json_text page then Raises [error_decode]
          else Returns PyNone [error_decode; text_area_received json_text]
      | _ => Raises [error_decode]
      end
  | inl (ValueError e) =>
      if question_data_bound response then Returns PyNone [error_validation e]
      else Raises [error_validation e]
  | inl Exception =>
      Returns PyNone
        (error_general :: if response_bound response then [error_details] else [])
  end.

(** ** The session state *)

Record SessionState : Type := {
  current_question : pyval;
  question_requested : bool;
  user_answer : pyval;
  submitted : bool;
  feedback : pyval;
  correct_count : Z;
  total_questions : Z;
  max_questions : Z;
  quiz_finished : bool;
  (** The set, as the list of its elements in the order they were added. *)
  asked_questions_set : list pyval
}.

(** The block run when ['current_question' not in st.session_state]. *)
Definition initial_state : SessionState := {|
  current_question := PyNone;
  question_requested := false;
  user_answer := PyNone;
  submitted := false;
  feedback := PyNone;
  correct_count := 0;
  total_questions := 0;
  max_questions := 10;
  quiz_finished := false;
  asked_questions_set := []
|}.

Definition set_current_question (v : pyval) (s : SessionState) : SessionState :=
  {| current_question := v;
     question_requested := question_requested s;
     user_answer := user_answer s;
     submitted := submitted s;
     feedback := feedback s;
     correct_count := correct_count s;
     total_questions := total_questions s;
     max_questions := max_questions s;
     quiz_finished := quiz_finished s;
     asked_questions_set := asked_questions_set s |}.

Definition set_question_requested (v : bool) (s : SessionState) : SessionState :=
  {| current_question := current_question s;
     question_requested := v;
     user_answer := user_answer s;
     submitted := submitted s;
     feedback := feedback s;
     correct_count := correct_count s;
     total_questions := total_questions s;
     max_questions := max_questions s;
     quiz_finished := quiz_finished s;
     asked_questions_set := asked_questions_set s |}.

Definition set_user_answer (v : pyval) (s : SessionState) : SessionState :=
  {| current_question := current_question s;
     question_requested := question_requested s;
     user_answer := v;
     submitted := submitted s;
     feedback := feedback s;
     correct_count := correct_count s;
     total_questions := total_questions s;
     max_questions := max_questions s;
     quiz_finished := quiz_finished s;
     asked_questions_set := asked_questions_set s |}.

Definition set_submitted (v : bool) (s : SessionState) : SessionState :=
  {| current_question := current_question s;
     question_requested := question_requested s;
     user_answer := user_answer s;
     submitted := v;
     feedback := feedback s;
     correct_count := correct_count s;
     total_questions := total_questions s;
     max_questions := max_questions s;
     quiz_finished := quiz_finished s;
     asked_questions_set := asked_questions_set s |}.

Definition set_feedback (v : pyval) (s : SessionState) : SessionState :=
  {| current_question := current_question s;
     question_requested := question_requested s;
     user_answer := user_answer s;
     submitted := submitted s;
     feedback := v;
     correct_count := correct_count s;
     total_questions := total_questions s;
     max_questions := max_questions s;
     quiz_finished := quiz_finished s;
     asked_questions_set := asked_questions_set s |}.

Definition set_correct_count (v : Z) (s : SessionState) : SessionState :=
  {| current_question := current_question s;
     question_requested := question_requested s;
     user_answer := user_answer s;
     submitted := submitted s;
     feedback := feedback s;
     correct_count := v;
     total_questions := total_questions s;
     max_questions := max_questions s;
     quiz_finished := quiz_finished s;
     asked_questions_set := asked_questions_set s |}.

Definition set_total_questions (v : Z) (s : SessionState) : SessionState :=
  {| current_question := current_question s;
     question_requested := question_requested s;
     user_answer := user_answer s;
     submitted := submitted s;
     feedback := feedback s;
     correct_count := correct_count s;
     total_questions := v;
     max_questions := max_questions s;
     quiz_finished := quiz_finished s;
     asked_questions_set := asked_questions_set s |}.

Definition set_quiz_finished (v : bool) (s : SessionState) : SessionState :=
  {| current_question := current_question s;
     question_requested := question_requested s;
     user_answer := user_answer s;
     submitted := submitted s;
     feedback := feedback s;
     correct_count := correct_count s;
     total_questions := total_questions s;
     max_questions := max_questions s;
     quiz_finished := v;
     asked_questions_set := asked_questions_set s |}.

Definition set_asked_questions_set (v : list pyval) (s : SessionState)
  : SessionState :=
  {| current_question := current_question s;
     question_requested := question_requested s;
     user_answer := user_answer s;
     submitted := submitted s;
     feedback := feedback s;
     correct_count := correct_count s;
     total_questions := total_questions s;
     max_questions := max_questions s;
     quiz_finished := quiz_finished s;
     asked_questions_set := v |}.

(** [x in s] and [s.add(x)] for a set of hashable values. *)
Definition set_contains (s : list pyval) (x : pyval) : bool := Py.in_list x s.

Definition set_add (s : list pyval) (x : pyval) : list pyval :=
  if set_contains s x then s else s ++ [x].


(** ** One run of the script *)

Inductive button : Type :=
| EnviarRespuesta
| SiguientePregunta
| VerResultadosFinales
| ReiniciarQuiz.

#[global] Instance button_eq_dec : EqDecision button.
Proof. solve_decision. Defined.

(** What a run reads from outside the session state: the button whose click
    started the run, the value of the radio widget ([PyNone] when nothing is
    selected), the outcome of the model call and of [json.loads] in each
    attempt, and the draws of [random.shuffle] in each attempt. *)
Record widgets : Type := {
  clicked : option button;
  radio : pyval;
  model : nat -> model_response;
  rand : nat -> nat -> nat
}.

(** [st.button(label, disabled=disabled)]. *)
Definition st_button (w : widgets) (b : button) (disabled : bool) : bool :=
  bool_decide (clicked w = Some b) && negb disabled.

(** How a run stops: [st.rerun()], the end of the script, or an exception
    nothing catches. *)
Inductive ending : Type := Rerun | RanToEnd | Uncaught.

Record run : Type := {
  state_after : SessionState;
  shown : list ui;
  ended : ending
}.

Definition max_attempts : nat := 5.

(** How the [while] loop is left: normally, with [new_question], or by an
    exception: the one that leaves the generator, or the [TypeError] of an
    unhashable [question_text]. [msgs] is what the page holds by then. *)
Inductive loop_exit : Type :=
| Exited (new_question : pyval) (s : SessionState) (attempts : nat)
    (msgs : list ui)
| Raised (s : SessionState) (attempts : nat) (msgs : list ui).

(** One iteration of the loop body after [attempts += 1], on a page that
    holds [msgs]: [inl] when the loop goes on ([new_question] still [None]),
    [inr] when it is left. *)
Definition attempt (w : widgets) (attempts : nat) (s : SessionState)
    (msgs : list ui) : (SessionState * list ui) + loop_exit :=
  match generate_crypto_question_google msgs (model w attempts) (rand w attempts) with
  | Raises gen_msgs => inr (Raised s attempts (msgs ++ gen_msgs))
  | Returns generated_data gen_msgs =>
      let msgs := msgs ++ gen_msgs in
      if Py.truthy generated_data then
        match Py.subscript generated_data "question" with
        | None => inr (Raised s attempts msgs)
        | Some question_text =>
            if negb (Py.hashable question_text) then inr (Raised s attempts msgs)
            else if negb (set_contains (asked_questions_set s) question_text) then
              let new_question := generated_data in
              let s := set_asked_questions_set
                         (set_add (asked_questions_set s) question_text) s in
              inr (Exited new_question s attempts msgs)
            else inl (s, msgs)
        end
      else inl (s, msgs)
  end.

(** [while attempts < max_attempts], by recursion on
    [max_attempts - attempts]. *)
Fixpoint generation_loop (w : widgets) (remaining attempts : nat)
    (s : SessionState) (msgs : list ui) : loop_exit :=
  match remaining with
  | O => Exited PyNone s attempts msgs
  | S remaining' =>
      let attempts := (attempts + 1)%nat in
      match attempt w attempts s msgs with
      | inl (s, msgs) => generation_loop w remaining' attempts s msgs
      | inr exit => exit
      end
  end.

(** [user_answer = None; submitted = False; feedback = None], the three
    assignments every handler that leaves a question makes. *)
Definition clear_answer (s : SessionState) : SessionState :=
  set_feedback PyNone (set_submitted false (set_user_answer PyNone s)).

(** Lines 189-193: the new question is stored. *)
Definition store_question (new_question : pyval) (s : SessionState)
  : SessionState :=
  let s := set_current_question new_question s in
  let s := clear_answer s in
  set_question_requested false s.

(** Lines 201-206: the quiz finishes on a render. *)
Definition finish_on_render (s : SessionState) : SessionState :=
  let s := set_quiz_finished true s in
  let s := set_current_question PyNone s in
  let s := clear_answer s in
  set_question_requested false s.

Definition correcto : string := "✅ ¡Correcto!".
Definition incorrecto : string := "❌ Incorrecto.".

(** Lines 234-239, after [submitted = True] and the read of
    [q_data['answer']]. *)
Definition score_answer (correct_answer : pyval) (s : SessionState)
  : SessionState :=
  let s :=
    if Py.eq (user_answer s) correct_answer
    then set_correct_count (correct_count s + 1)
           (set_feedback (PyStr correcto) s)
    else set_feedback (PyStr incorrecto) s in
  set_total_questions (total_questions s + 1) s.

(** Lines 264-268: "Siguiente Pregunta". *)
Definition next_question (s : SessionState) : SessionState :=
  let s := set_current_question PyNone s in
  let s := clear_answer s in
  set_question_requested false s.

(** Lines 273-277: "Ver Resultados Finales". *)
Definition view_results (s : SessionState) : SessionState :=
  let s := set_quiz_finished true s in
  let s := set_current_question PyNone s in
  clear_answer s.

(** Lines 312-321: "Reiniciar Quiz". *)
Definition restart (s : SessionState) : SessionState :=
  let s := set_current_question PyNone s in
  let s := set_question_requested false s in
  let s := clear_answer s in
  let s := set_correct_count 0 s in
  let s := set_total_questions 0 s in
  let s := set_quiz_finished false s in
  set_asked_questions_set [] s.

(** Lines 163-207: request a question or finish the quiz. [inl] when the
    run stops here, [inr] when the script goes on. *)
Definition request_question (w : widgets) (s : SessionState)
  : run + (SessionState * list ui) :=
  if Py.is_none (current_question s) && negb (question_requested s) then
    if total_questions s <? max_questions s then
      let s := set_question_requested true s in
      match generation_loop w max_attempts 0 s [] with
      | Raised s _ msgs =>
          inl {| state_after := s; shown := msgs; ended := Uncaught |}
      | Exited new_question s _ msgs =>
          if Py.truthy new_question then
            inl {| state_after := store_question new_question s;
                   shown := msgs; ended := Rerun |}
          else
            let msgs := msgs ++ [error_no_question (Z.of_nat max_attempts)] in
            inr (set_question_requested false s, msgs)
      end
    else if (total_questions s =? max_questions s) && negb (quiz_finished s) then
      inl {| state_after := finish_on_render s; shown := []; ended := Rerun |}
    else inr (s, [])
  else inr (s, []).

(** Lines 245-255 raise nothing: [in] applies to the feedback, a wrong
    answer reads [q_data['answer']], and [q_data.get] needs a dict. *)
Definition feedback_renders (q_data feedback : pyval) : bool :=
  match Py.contains feedback "✅" with
  | Some true => Py.is_dict q_data
  | Some false => bool_decide (is_Some (Py.subscript q_data "answer"))
  | None => false
  end.

(** Lines 211-284: the question with its radio and submit button, or the
    feedback with the button that leaves it. What can raise here is what
    the script itself does, the subscripts and [get] on [q_data] and the
    [in] on the feedback; the calls that put the elements on the page are
    taken to return. *)
Definition show_question (w : widgets) (s : SessionState) (msgs : list ui)
  : run :=
  if Py.truthy (current_question s) then
    let q_data := current_question s in
    if negb (submitted s) then
      match Py.subscript q_data "question", Py.subscript q_data "options" with
      | Some _, Some options =>
          let s := set_user_answer (radio w) s in
          let submit_button_disabled := Py.is_none (radio w) in
          if st_button w EnviarRespuesta submit_button_disabled then
            let s := set_submitted true s in
            match Py.subscript q_data "answer" with
            | Some correct_answer =>
                {| state_after := score_answer correct_answer s;
                   shown := msgs; ended := Rerun |}
            | None => {| state_after := s; shown := msgs; ended := Uncaught |}
            end
          else {| state_after := s; shown := msgs; ended := RanToEnd |}
      | _, _ => {| state_after := s; shown := msgs; ended := Uncaught |}
      end
    else if submitted s && Py.truthy (feedback s) then
      if feedback_renders q_data (feedback s) then
        if total_questions s <? max_questions s then
          if st_button w SiguientePregunta false then
            {| state_after := next_question s; shown := msgs; ended := Rerun |}
          else {| state_after := s; shown := msgs; ended := RanToEnd |}
        else
          if st_button w VerResultadosFinales false then
            {| state_after := view_results s; shown := msgs; ended := Rerun |}
          else {| state_after := s; shown := msgs; ended := RanToEnd |}
      else {| state_after := s; shown := msgs; ended := Uncaught |}
    else {| state_after := s; shown := msgs; ended := RanToEnd |}
  else if Py.is_none (current_question s) && negb (question_requested s) then
    {| state_after := s; shown := msgs ++ [info_wait]; ended := RanToEnd |}
  else {| state_after := s; shown := msgs; ended := RanToEnd |}.

(** Lines 287-322: the final score and the restart button. *)
Definition show_results (w : widgets) (s : SessionState) : run :=
  if st_button w ReiniciarQuiz false then
    {| state_after := restart s; shown := []; ended := Rerun |}
  else {| state_after := s; shown := []; ended := RanToEnd |}.

(** One execution of the script from line 158 on, in a session whose state
    is initialised and whose API key is configured. *)
Definition script (w : widgets) (s : SessionState) : run :=
  if negb (quiz_finished s) then
    match request_question w s with
    | inl r => r
    | inr (s, msgs) => show_question w s msgs
    end
  else show_results w s.

(** The states a session can be in: the initial one and those left by a
    run of the script, whatever the user and the model do. *)
Inductive reachable : SessionState -> Prop :=
| reachable_initial : reachable initial_state
| reachable_run (w : widgets) (s : SessionState) :
    reachable s -> reachable (state_after (script w s)).

(** ** Vocabulary of the statements *)

(** What the checks of lines 90-104 establish about the dict [d] they let
    through. *)
Record validated (d : list (string * pyval))
    (type : pyval) (options : list pyval) (answer explanation : pyval)
  : Prop := {
  v_question : is_Some (Py.dict_get d "question");
  v_type : Py.dict_get d "type" = Some type;
  v_options : Py.dict_get d "options" = Some (PyList options);
  v_answer : Py.dict_get d "answer" = Some answer;
  v_difficulty : is_Some (Py.dict_get d "difficulty");
  v_explanation : Py.dict_get d "explanation" = Some explanation;
  v_mc : Py.eq type (PyStr "mc") = true -> Py.in_list answer options = true;
  v_tf : Py.eq type (PyStr "tf") = true ->
         Py.in_list answer [PyStr "Verdadero"; PyStr "Falso"] = true;
  v_len : is_Some (Py.len explanation)
}.

(** The question returned for a validated dict. *)
Definition returned_question (rand : nat -> nat) (d : list (string * pyval))
    (type : pyval) (options : list pyval) : pyval :=
  if Py.eq type (PyStr "mc")
  then PyDict (Py.dict_set d "options" (PyList (Py.shuffle rand options)))
  else PyDict d.

(** Attempt [n] of a run yields question [q], whatever the page holds,
    with text [text], which can be hashed and is not in the history of
    [s]. *)
Definition novel (w : widgets) (n : nat) (s : SessionState) (q text : pyval)
  : Prop :=
  (forall page,
      returned (generate_crypto_question_google page (model w n) (rand w n)) =
        Some q) /\
  Py.truthy q = true /\
  Py.subscript q "question" = Some text /\
  Py.hashable text = true /\
  set_contains (asked_questions_set s) text = false.

(** Attempt [n] of a run, on a page that holds [page], fails ([None] is
    returned) or yields a question whose text is in the history of [s]. *)
Definition fails_or_duplicate (w : widgets) (n : nat) (s : SessionState)
    (page : list ui) : Prop :=
  exists q,
    returned (generate_crypto_question_google page (model w n) (rand w n)) =
      Some q /\
    (q = PyNone \/
     exists text, Py.subscript q "question" = Some text /\
                  Py.hashable text = true /\
                  set_contains (asked_questions_set s) text = true).

(** What a call puts on the page. *)
Definition messages (r : call_result) : list ui :=
  match r with
  | Returns _ msgs => msgs
  | Raises msgs => msgs
  end.

(** What the page holds after the attempts 1 to [n] of a run. *)
Fixpoint rendered (w : widgets) (n : nat) : list ui :=
  match n with
  | O => []
  | S n' =>
      rendered w n' ++
      messages (generate_crypto_question_google (rendered w n')
                  (model w (S n')) (rand w (S n')))
  end.

(** Line 179. *)
Definition remember (text : pyval) (s : SessionState) : SessionState :=
  set_asked_questions_set (asked_questions_set s ++ [text]) s.

(** The value of [attempts] when the loop is left. *)
Definition exit_attempts (e : loop_exit) : nat :=
  match e with
  | Exited _ _ n _ => n
  | Raised _ n _ => n
  end.

(** What one run of the script can do to the session state. *)
Inductive step (w : widgets) (s : SessionState) : SessionState -> Prop :=
| step_stay :
    step w s s
| step_store (n : nat) (q text : pyval) :
    quiz_finished s = false ->
    current_question s = PyNone ->
    question_requested s = false ->
    total_questions s < max_questions s ->
    (1 <= n <= max_attempts)%nat ->
    novel w n s q text ->
    step w s (store_question q (remember text (set_question_requested true s)))
| step_raised :
    quiz_finished s = false ->
    current_question s = PyNone ->
    question_requested s = false ->
    total_questions s < max_questions s ->
    step w s (set_question_requested true s)
| step_finish :
    quiz_finished s = false ->
    current_question s = PyNone ->
    question_requested s = false ->
    total_questions s = max_questions s ->
    step w s (finish_on_render s)
| step_radio :
    quiz_finished s = false ->
    Py.truthy (current_question s) = true ->
    submitted s = false ->
    step w s (set_user_answer (radio w) s)
| step_submit (correct_answer : pyval) :
    quiz_finished s = false ->
    Py.truthy (current_question s) = true ->
    submitted s = false ->
    clicked w = Some EnviarRespuesta ->
    radio w <> PyNone ->
    Py.subscript (current_question s) "answer" = Some correct_answer ->
    step w s (score_answer correct_answer
                (set_submitted true (set_user_answer (radio w) s)))
| step_submit_raised :
    quiz_finished s = false ->
    Py.truthy (current_question s) = true ->
    submitted s = false ->
    clicked w = Some EnviarRespuesta ->
    Py.subscript (current_question s) "answer" = None ->
    step w s (set_submitted true (set_user_answer (radio w) s))
| step_next :
    quiz_finished s = false ->
    Py.truthy (current_question s) = true ->
    submitted s = true ->
    clicked w = Some SiguientePregunta ->
    total_questions s < max_questions s ->
    step w s (next_question s)
| step_results :
    quiz_finished s = false ->
    Py.truthy (current_question s) = true ->
    submitted s = true ->
    clicked w = Some VerResultadosFinales ->
    max_questions s <= total_questions s ->
    step w s (view_results s)
| step_restart :
    quiz_finished s = true ->
    clicked w = Some ReiniciarQuiz ->
    step w s (restart s).

(** What the script relies on when it reads the current question. *)
Definition is_question (q : pyval) : Prop :=
  exists text options answer,
    Py.subscript q "question" = Some text /\
    Py.hashable text = true /\
    Py.subscript q "options" = Some (PyList options) /\
    Py.subscript q "answer" = Some answer.

(** What holds of every state a session reaches: the bounds on the two
    counters, what a finished quiz and a stored question imply, and the size
    of the history, one text for each question answered or on display. *)
Record invariant (s : SessionState) : Prop := {
  inv_max : max_questions s = 10;
  inv_score : 0 <= correct_count s <= total_questions s;
  inv_total : total_questions s <= max_questions s;
  inv_finished :
    quiz_finished s = true ->
    total_questions s = max_questions s /\ current_question s = PyNone;
  inv_question :
    current_question s <> PyNone -> is_question (current_question s);
  inv_unanswered :
    current_question s <> PyNone -> submitted s = false ->
    total_questions s < max_questions s;
  inv_submitted : submitted s = true -> current_question s <> PyNone;
  inv_asked :
    Z.of_nat (length (asked_questions_set s)) =
    total_questions s +
    (if Py.is_none (current_question s) || submitted s then 0 else 1)
}.

(** Successive runs of the script. *)
Definition play (ws : list widgets) (s : SessionState) : SessionState :=
  fold_left (fun s w => state_after (script w s)) ws s.

(** No two texts of a history are equal. *)
Definition distinct_texts (asked : list pyval) : Prop :=
  forall (i j : nat) (x y : pyval),
    asked !! i = Some x -> asked !! j = Some y -> i <> j -> Py.eq x y = false.

(** A question of type ["mc"] has its answer among its options. *)
Definition answerable (q : pyval) : Prop :=
  forall type,
    Py.subscript q "type" = Some type ->
    Py.eq type (PyStr "mc") = true ->
    exists options answer,
      Py.subscript q "options" = Some (PyList options) /\
      Py.subscript q "answer" = Some answer /\
      Py.in_list answer options = true.

(** What else holds of every state a session reaches. *)
Record invariant_more (s : SessionState) : Prop := {
  more_requested :
    question_requested s = true ->
    current_question s = PyNone /\ quiz_finished s = false;
  more_finished :
    quiz_finished s = true ->
    user_answer s = PyNone /\ submitted s = false /\ feedback s = PyNone /\
    question_requested s = false;
  more_answerable :
    current_question s <> PyNone -> answerable (current_question s);
  more_hashable :
    Forall (fun x => Py.hashable x = true) (asked_questions_set s);
  more_distinct : distinct_texts (asked_questions_set s);
  more_feedback :
    submitted s = true ->
    feedback s = PyStr correcto \/ feedback s = PyStr incorrecto
}.

(** A string of whitespace characters only. *)
Definition spaces (s : string) : Prop :=
  exists chars : list (list ascii),
    Forall (fun c => c ∈ Text.whitespace) chars /\
    list_ascii_of_string s = concat chars.

(** No pattern is a prefix of another, as a test that computes. *)
Definition prefix_free (pats : list (list ascii)) : bool :=
  forallb (fun p =>
    forallb (fun q =>
      match Text.after_prefix p q with
      | Some [] | None => true
      | Some (_ :: _) => false
      end) pats) pats.

(** No pattern is empty or starts with [c]. *)
Definition none_starts_with (c : ascii) (pats : list (list ascii)) : bool :=
  forallb (fun p =>
    match p with
    | a :: _ => negb (Ascii.eqb a c)
    | [] => false
    end) pats.

(** A JSON object: a brace, anything, a brace. *)
Definition object_text (inner : list ascii) : list ascii :=
  "{"%char :: inner ++ ["}"%char].

(** ** Sample responses and sessions *)

(** A multiple-choice response with four options, two of them equal. *)
Definition four_options : pyval :=
  PyDict [("question", PyStr "Sea A = {1, 2}. ¿Cuál es un subconjunto de A?");
          ("type", PyStr "mc");
          ("options", PyList [PyStr "{1}"; PyStr "{3}"; PyStr "{1}"; PyStr "{4}"]);
          ("answer", PyStr "{1}");
          ("difficulty", PyStr "Fácil");
          ("explanation", PyStr "Todo elemento de {1} pertenece a A.")]%string.

(** A multiple-choice response whose answer is none of its options. *)
Definition answer_missing : list (string * pyval) :=
  [("question", PyStr "¿Cuál conjunto está incluido en {a, b}?");
   ("type", PyStr "mc");
   ("options", PyList [PyStr "{a}"; PyStr "{c}"; PyStr "{d}"; PyStr "{e}"; PyStr "{f}"]);
   ("answer", PyStr "{b}");
   ("difficulty", PyStr "Fácil");
   ("explanation", PyStr "Solo {a} tiene todos sus elementos en {a, b}.")]%string.

(** A true-false response with the given answer. *)
Definition tf_question (answer : string) : list (string * pyval) :=
  [("question", PyStr "El conjunto vacío está incluido en todo conjunto.");
   ("type", PyStr "tf");
   ("options", PyList [PyStr "True"; PyStr "False"]);
   ("answer", PyStr answer);
   ("difficulty", PyStr "Fácil");
   ("explanation", PyStr "Ningún elemento del vacío queda fuera de otro conjunto.")]%string.

(** The question returned for [four_options] when every draw is 0. *)
Definition four_options_shuffled : pyval :=
  Eval vm_compute in
    match generate_crypto_question_google [] (Parsed four_options) (fun _ => 0%nat) with
    | Returns q _ => q
    | Raises _ => PyNone
    end.

(** Question number [i], whose answer is its first option. *)
Definition question_number (i : nat) : pyval :=
  PyDict [("question", PyStr (String (ascii_of_nat (65 + i)) ""));
          ("type", PyStr "mc");
          ("options", PyList [PyStr "a"; PyStr "b"; PyStr "c"; PyStr "d"; PyStr "e"]);
          ("answer", PyStr "a");
          ("difficulty", PyStr "Intermedio");
          ("explanation", PyStr "La opción a es la única que cumple la definición.")]%string.

(** The model answers with question [i] and the shuffle draws leave the
    options in place; nothing is clicked or selected. *)
Definition render (i : nat) : widgets :=
  {| clicked := None; radio := PyNone;
     model := fun _ => Parsed (question_number i); rand := fun _ j => j |}.

(** [choice] is selected in the radio, and [b], if any, clicked. *)
Definition choose (choice : string) (b : option button) : widgets :=
  {| clicked := b; radio := PyStr choice;
     model := fun _ => ApiRaises Exception; rand := fun _ j => j |}.

(** [b] is clicked with nothing selected. *)
Definition click (b : button) : widgets :=
  {| clicked := Some b; radio := PyNone;
     model := fun _ => ApiRaises Exception; rand := fun _ j => j |}.

(** Question [i] is shown, [choice] is selected and sent. *)
Definition answer_question (i : nat) (choice : string) : list widgets :=
  [render i; choose choice None; choose choice (Some EnviarRespuesta)].

(** Ten questions answered correctly, then the final results. *)
Definition ten_correct : list widgets :=
  flat_map (fun i => answer_question i "a" ++ [click SiguientePregunta])
           (seq 0 9)
  ++ answer_question 9 "a" ++ [click VerResultadosFinales].

(** The state after the ten answers and the click on the results. *)
Definition finished_state : SessionState := play ten_correct initial_state.

(** The state in which question 0 is on display, nothing selected yet. *)
Definition showing_state : SessionState := play [render 0] initial_state.

(** A model that never answers in JSON: the same sentence at every
    attempt. *)
Definition never_json : widgets :=
  {| clicked := None; radio := PyNone;
     model := fun _ => NotJson "Lo siento, no puedo generar la pregunta.";
     rand := fun _ j => j |}.

(** A model that never answers in JSON, with another text at each
    attempt. *)
Definition never_json_varied : widgets :=
  {| clicked := None; radio := PyNone;
     model := fun n => NotJson (String (ascii_of_nat (64 + n)) " no es JSON");
     rand := fun _ j => j |}.

(** The model call fails four times, then the response has no text:
    reading [response.text] raises [ValueError]. *)
Definition blocked_at_fifth : widgets :=
  {| clicked := None; radio := PyNone;
     model := fun n => if (n <=? 4)%nat then ApiRaises Exception
                       else TextRaises (ValueError FromModelCall);
     rand := fun _ j => j |}.

(** The model repeats question 0, then answers with question 1. *)
Definition repeat_then_new : widgets :=
  {| clicked := None; radio := PyNone;
     model := fun n => if (n <=? 1)%nat then Parsed (question_number 0)
                       else Parsed (question_number 1);
     rand := fun _ j => j |}.

(** Question 0 has been answered and "Siguiente Pregunta" clicked. *)
Definition awaiting_second : SessionState :=
  play (answer_question 0 "a" ++ [click SiguientePregunta]) initial_state.


(** A response of a type the prompt does not name, with no options. *)
Definition open_question : list (string * pyval) :=
  [("question", PyStr "Describe el conjunto de los números pares.");
   ("type", PyStr "open");
   ("options", PyList []);
   ("answer", PyInt 42);
   ("difficulty", PyNone);
   ("explanation", PyStr "Se puede dar por comprensión: { 2k : k entero }.")]%string.

(** The model returns a question whose text is a list. *)
Definition list_text : widgets :=
  {| clicked := None; radio := PyNone;
     model := fun _ =>
       Parsed (PyDict (Py.dict_set (tf_question "Falso") "question"
                         (PyList [PyStr "¿Es el vacío un conjunto?"])));
     rand := fun _ j => j |}.

(** The state after a run in which the text of the question is a list. *)
Definition blocked_state : SessionState := play [list_text] initial_state.


(** Question 0 has been answered: its feedback is on display. *)
Definition feedback_state : SessionState :=
  play (answer_question 0 "a") initial_state.

(** Ten questions have been answered: the feedback of the last is on
    display. *)
Definition last_feedback_state : SessionState :=
  play (flat_map (fun i => answer_question i "a" ++ [click SiguientePregunta])
          (seq 0 9) ++ answer_question 9 "a")
       initial_state.

(** ** Python values: equality, dicts and the shuffle *)

Lemma eq_str_l (s : string) (x : pyval) :
  Py.eq (PyStr s) x = true <-> x = PyStr s.
Proof.
  destruct x; simpl; try (split; [discriminate | discriminate]).
  rewrite String.eqb_eq. split; [intros ->; reflexivity | intros [= ->]; reflexivity].
Qed.

Lemma eq_str_r (s : string) (x : pyval) :
  Py.eq x (PyStr s) = true <-> x = PyStr s.
Proof.
  destruct x; simpl; try (split; [discriminate | discriminate]).
  rewrite String.eqb_eq. split; [intros ->; reflexivity | intros [= ->]; reflexivity].
Qed.

Lemma eq_hashable_refl (x : pyval) : Py.hashable x = true -> Py.eq x x = true.
Proof.
  destruct x as [|b|n|s|l|d]; simpl; try discriminate; intros _.
  - reflexivity.
  - destruct b; reflexivity.
  - apply Z.eqb_refl.
  - apply String.eqb_refl.
Qed.

Lemma in_list_elem_of (x : pyval) (l : list pyval) :
  Py.in_list x l = true <-> exists e, e ∈ l /\ Py.eq e x = true.
Proof.
  unfold Py.in_list. rewrite existsb_exists.
  split; intros (e & He & Heq); exists e; split; auto;
    by apply list_elem_of_In.
Qed.

Lemma in_list_Permutation (x : pyval) (l k : list pyval) :
  l ≡ₚ k -> Py.in_list x l = Py.in_list x k.
Proof.
  intros Hperm. apply eq_true_iff_eq. rewrite !in_list_elem_of.
  split; intros (e & He & Heq); exists e; split; auto.
  - by rewrite <- Hperm.
  - by rewrite Hperm.
Qed.

Lemma in_list_app (x : pyval) (l k : list pyval) :
  Py.in_list x (l ++ k) = Py.in_list x l || Py.in_list x k.
Proof. unfold Py.in_list. apply existsb_app. Qed.

Lemma dict_get_set {A : Type} (d : list (string * A)) (k k' : string) (v : A) :
  Py.dict_get (Py.dict_set d k v) k' =
  if String.eqb k k' then Some v else Py.dict_get d k'.
Proof.
  induction d as [|[k0 v0] d IH]; simpl.
  - destruct (String.eqb k k'); reflexivity.
  - destruct (String.eqb k0 k) eqn:Hk0; simpl.
    + apply String.eqb_eq in Hk0 as ->.
      destruct (String.eqb k k'); reflexivity.
    + destruct (String.eqb k0 k') eqn:Hk0'; [|exact IH].
      apply String.eqb_eq in Hk0' as ->. by rewrite String.eqb_sym, Hk0.
Qed.

Lemma swap_Permutation {A : Type} (x : list A) (i j : nat) : Py.swap x i j ≡ₚ x.
Proof.
  unfold Py.swap.
  destruct (x !! i) as [xi|] eqn:Hi; [|reflexivity].
  destruct (x !! j) as [xj|] eqn:Hj; [|reflexivity].
  by apply Permutation_insert_swap.
Qed.

Lemma shuffle_from_Permutation {A : Type} (rand : nat -> nat) (i : nat) (x : list A) :
  Py.shuffle_from rand i x ≡ₚ x.
Proof.
  revert x. induction i as [|i IH]; intros x; simpl; [reflexivity|].
  rewrite IH. apply swap_Permutation.
Qed.

Lemma shuffle_Permutation {A : Type} (rand : nat -> nat) (x : list A) :
  Py.shuffle rand x ≡ₚ x.
Proof. apply shuffle_from_Permutation. Qed.

Lemma subscript_truthy (q : pyval) (key : string) (v : pyval) :
  Py.subscript q key = Some v -> Py.truthy q = true.
Proof.
  destruct q as [| | | | |d]; try discriminate.
  destruct d; [discriminate | reflexivity].
Qed.

(** ** The validation *)

#[local] Arguments Py.eq : simpl never.
#[local] Arguments Py.in_list : simpl never.
#[local] Arguments Py.dict_get : simpl never.
#[local] Arguments Py.dict_set : simpl never.
#[local] Arguments Py.shuffle : simpl never.
#[local] Arguments Py.str_len : simpl never.
#[local] Arguments String.eqb : simpl never.

(** Runs the exception monad one step. *)
Ltac run_result :=
  unfold mret, result_ret in *;
  cbn [mbind result_bind raise or_raise negb] in *.

Lemma all_in_dict (d : list (string * pyval)) (keys : list string) :
  all_in (PyDict d) keys = Some true <->
  Forall (fun key => is_Some (Py.dict_get d key)) keys.
Proof.
  induction keys as [|key keys IH]; cbn [all_in Py.contains].
  - split; [constructor | reflexivity].
  - rewrite Forall_cons, <- IH. case_bool_decide as Hkey.
    + tauto.
    + split; [discriminate | tauto].
Qed.

Lemma validate_returns (rand : nat -> nat) (question_data q : pyval)
    (warned : bool) :
  validate rand question_data = inr (q, warned) ->
  exists d type options answer explanation,
    question_data = PyDict d /\
    validated d type options answer explanation /\
    q = returned_question rand d type options.
Proof.
  unfold validate, returned_question, shuffle_options.
  destruct (all_in question_data required_keys) as [[|]|] eqn:Hall;
    run_result; try discriminate.
  destruct question_data as [| | | | |d]; cbn [Py.subscript];
    run_result; try discriminate.
  apply all_in_dict in Hall.
  repeat (apply Forall_cons in Hall as [? Hall]).
  destruct (Py.dict_get d "options") as [options|] eqn:Hoptions;
    run_result; [|discriminate].
  destruct options as [| | | |options|]; cbn [Py.is_list];
    run_result; try discriminate.
  destruct (Py.dict_get d "type") as [type|] eqn:Htype;
    run_result; [|discriminate].
  destruct (Py.dict_get d "answer") as [answer|] eqn:Hanswer;
    run_result; [|discriminate].
  destruct (Py.eq type (PyStr "mc") && negb (Py.in_list answer options))
    eqn:Hmc; [discriminate|].
  destruct (Py.eq type (PyStr "tf") && negb _) eqn:Htf; [discriminate|].
  destruct (Py.dict_get d "explanation") as [explanation|] eqn:Hexpl;
    run_result; [|discriminate].
  intros Hret.
  assert (Hlen : is_Some (Py.len explanation) /\
                 q = if Py.eq type (PyStr "mc")
                     then PyDict (Py.dict_set d "options"
                                    (PyList (Py.shuffle rand options)))
                     else PyDict d).
  { destruct (negb (Py.is_str explanation) || _) eqn:Hwarn; run_result.
    - destruct (Py.len explanation); run_result; [|discriminate].
      split; [eauto|].
      destruct (Py.eq type (PyStr "mc")); run_result; congruence.
    - apply orb_false_iff in Hwarn as [Hstr _].
      split; [destruct explanation; cbn in *; try discriminate; eauto|].
      destruct (Py.eq type (PyStr "mc")); run_result; congruence. }
  destruct Hlen as [Hlen ->].
  exists d, type, options, answer, explanation. split; [reflexivity|].
  split; [|reflexivity].
  constructor; auto.
  - intros Ht. rewrite Ht in Hmc. by apply negb_false_iff in Hmc.
  - intros Ht. rewrite Ht in Htf. by apply negb_false_iff in Htf.
Qed.

Lemma required_keys_present (d : list (string * pyval))
    (type : pyval) (options : list pyval) (answer explanation : pyval) :
  validated d type options answer explanation ->
  all_in (PyDict d) required_keys = Some true.
Proof.
  intros [Hq Ht Ho Ha Hd He _ _ _]. apply all_in_dict.
  repeat (apply Forall_cons; split); try (by eauto); constructor.
Qed.

Lemma validate_accepts (rand : nat -> nat) (d : list (string * pyval))
    (type : pyval) (options : list pyval) (answer explanation : pyval) :
  validated d type options answer explanation ->
  exists warned,
    validate rand (PyDict d) = inr (returned_question rand d type options, warned).
Proof.
  intros Hv. pose proof (required_keys_present _ _ _ _ _ Hv) as Hall.
  destruct Hv as [Hq Ht Ho Ha Hd He Hmc Htf [n Hlen]].
  unfold validate, returned_question, shuffle_options.
  rewrite Hall. cbn [Py.subscript]. rewrite Ho, Ht, Ha, He.
  run_result. cbn [Py.is_list]. run_result. rewrite Hlen.
  destruct (Py.eq type (PyStr "mc")) eqn:Hismc.
  - rewrite (Hmc eq_refl). cbn [negb andb].
    apply eq_str_r in Hismc as ->.
    replace (Py.eq (PyStr "mc") (PyStr "tf")) with false by reflexivity.
    cbn [andb]. destruct (_ || _); run_result; eauto.
  - cbn [andb]. destruct (Py.eq type (PyStr "tf")) eqn:Histf.
    + rewrite (Htf eq_refl). cbn [negb andb].
      destruct (_ || _); run_result; eauto.
    + cbn [andb]. destruct (_ || _); run_result; eauto.
Qed.

Lemma validate_rejects_mc (rand : nat -> nat) (d : list (string * pyval))
    (options : list pyval) (answer : pyval) :
  Forall (fun key => is_Some (Py.dict_get d key)) required_keys ->
  Py.dict_get d "type" = Some (PyStr "mc") ->
  Py.dict_get d "options" = Some (PyList options) ->
  Py.dict_get d "answer" = Some answer ->
  Py.in_list answer options = false ->
  validate rand (PyDict d) = inl (ValueError AnswerNotInOptions).
Proof.
  intros Hall%all_in_dict Ht Ho Ha Hnotin. unfold validate.
  rewrite Hall. cbn [Py.subscript]. rewrite Ho, Ht, Ha. run_result.
  cbn [Py.is_list]. run_result. rewrite Hnotin. reflexivity.
Qed.

Lemma validate_rejects_tf (rand : nat -> nat) (d : list (string * pyval))
    (options : list pyval) (answer : pyval) :
  Forall (fun key => is_Some (Py.dict_get d key)) required_keys ->
  Py.dict_get d "type" = Some (PyStr "tf") ->
  Py.dict_get d "options" = Some (PyList options) ->
  Py.dict_get d "answer" = Some answer ->
  Py.in_list answer [PyStr "Verdadero"; PyStr "Falso"] = false ->
  validate rand (PyDict d) = inl (ValueError AnswerNotVerdaderoFalso).
Proof.
  intros Hall%all_in_dict Ht Ho Ha Hnotin. unfold validate.
  rewrite Hall. cbn [Py.subscript]. rewrite Ho, Ht, Ha. run_result.
  cbn [Py.is_list]. run_result. rewrite Hnotin. reflexivity.
Qed.

(** A value the generator returns other than [None] comes from a response
    that parsed and passed the validation. *)
Lemma generate_returns (page : list ui) (response : model_response)
    (rand : nat -> nat) (q : pyval) (msgs : list ui) :
  generate_crypto_question_google page response rand = Returns q msgs ->
  q <> PyNone ->
  exists d type options answer explanation,
    response = Parsed (PyDict d) /\
    validated d type options answer explanation /\
    q = returned_question rand d type options.
Proof.
  unfold generate_crypto_question_google, generate_outcome.
  destruct response as [[|e|]|[|e|]|response_text| | |question_data];
    cbn [raise question_data_bound];
    try (intros [= <- _]; done); try discriminate.
  { destruct (text_area_shown _ _); [discriminate|]. intros [= <- _]. done. }
  destruct (validate rand question_data) as [[|e|]|[q' warned]] eqn:Hv;
    try (intros [= <- _]; done).
  intros [= <- _] _.
  apply validate_returns in Hv as (d & type & options & answer & expl & -> & Hv & ->).
  by exists d, type, options, answer, expl.
Qed.

Lemma in_list_verdadero_falso (answer : pyval) :
  Py.in_list answer [PyStr "Verdadero"; PyStr "Falso"] = true <->
  answer = PyStr "Verdadero" \/ answer = PyStr "Falso".
Proof.
  unfold Py.in_list. cbn [existsb]. rewrite orb_false_r, orb_true_iff.
  by rewrite !eq_str_l.
Qed.

Lemma returned_question_get (rand : nat -> nat) (d : list (string * pyval))
    (type : pyval) (options : list pyval) (key : string) :
  key <> "options"%string ->
  Py.subscript (returned_question rand d type options) key = Py.dict_get d key.
Proof.
  intros Hkey. unfold returned_question.
  destruct (Py.eq type (PyStr "mc")); cbn [Py.subscript]; [|reflexivity].
  rewrite dict_get_set.
  destruct (String.eqb_spec "options" key); congruence.
Qed.

Lemma returned_question_options (rand : nat -> nat) (d : list (string * pyval))
    (type : pyval) (options : list pyval) :
  Py.dict_get d "options" = Some (PyList options) ->
  Py.subscript (returned_question rand d type options) "options" =
  Some (PyList (if Py.eq type (PyStr "mc")
                then Py.shuffle rand options else options)).
Proof.
  intros Ho. unfold returned_question.
  destruct (Py.eq type (PyStr "mc")); cbn [Py.subscript]; [|exact Ho].
  by rewrite dict_get_set.
Qed.

Lemma generate_returns_none_or_truthy (page : list ui)
    (response : model_response) (rand : nat -> nat) (q : pyval)
    (msgs : list ui) :
  generate_crypto_question_google page response rand = Returns q msgs ->
  q = PyNone \/ Py.truthy q = true.
Proof.
  intros Hgen.
  assert (Hq : q = PyNone \/ q <> PyNone) by (destruct q; [left|right..]; done).
  destruct Hq as [->|Hq]; [by left|right].
  apply generate_returns in Hgen
    as (d & type & options & answer & expl & -> & Hv & ->); [|done].
  apply (subscript_truthy _ "type" type).
  rewrite returned_question_get by done. exact (v_type _ _ _ _ _ Hv).
Qed.

(** ** Multiple-choice questions (C1) *)

(** C1, as stated, fails: a multiple-choice question with four options, two
    of them equal, passes the validation and is returned. *)
Lemma mc_four_options_returned :
  exists q options,
    generate_crypto_question_google [] (Parsed four_options) (fun i => i) =
      Returns q [] /\
    Py.subscript q "type" = Some (PyStr "mc") /\
    Py.subscript q "options" = Some (PyList options) /\
    length options <> 5%nat /\
    ~ NoDup options.
Proof.
  exists four_options, [PyStr "{1}"; PyStr "{3}"; PyStr "{1}"; PyStr "{4}"]%string.
  repeat split; try (vm_compute; reflexivity); [discriminate|].
  intros Hnodup. apply NoDup_cons_1_1 in Hnodup. apply Hnodup.
  right. left.
Qed.

(** C1 (amended): every question the generator returns with type ["mc"]
    has a list of options and an answer that is one of them; a dict with the
    required keys and a list of options whose type is ["mc"] and whose answer
    is not among the options is not returned: the generator reports the
    [ValueError] and returns [None]. *)
Theorem mc_answer_in_options :
  (forall (page : list ui) (response : model_response) (rand : nat -> nat)
          (q : pyval) (msgs : list ui) (type : pyval),
      generate_crypto_question_google page response rand = Returns q msgs ->
      Py.subscript q "type" = Some type ->
      Py.eq type (PyStr "mc") = true ->
      exists options answer,
        Py.subscript q "options" = Some (PyList options) /\
        Py.subscript q "answer" = Some answer /\
        Py.in_list answer options = true) /\
  (forall (page : list ui) (rand : nat -> nat) (d : list (string * pyval))
          (options : list pyval) (answer : pyval),
      Forall (fun key => is_Some (Py.dict_get d key)) required_keys ->
      Py.dict_get d "type" = Some (PyStr "mc") ->
      Py.dict_get d "options" = Some (PyList options) ->
      Py.dict_get d "answer" = Some answer ->
      Py.in_list answer options = false ->
      generate_outcome (Parsed (PyDict d)) rand = inl (ValueError AnswerNotInOptions) /\
      generate_crypto_question_google page (Parsed (PyDict d)) rand =
        Returns PyNone [error_validation AnswerNotInOptions]).
Proof.
  split.
  - intros page response rand q msgs type Hgen Htype Hmc.
    apply generate_returns in Hgen
      as (d & type' & options & answer & expl & -> & Hv & ->);
      [|by intros ->].
    rewrite returned_question_get in Htype by done.
    rewrite (v_type _ _ _ _ _ Hv) in Htype. injection Htype as ->.
    rewrite (returned_question_options _ _ _ _ (v_options _ _ _ _ _ Hv)).
    rewrite returned_question_get by done. rewrite Hmc.
    eexists _, answer. split; [reflexivity|].
    split; [exact (v_answer _ _ _ _ _ Hv)|].
    rewrite (in_list_Permutation _ _ options) by apply shuffle_Permutation.
    by apply (v_mc _ _ _ _ _ Hv).
  - intros page rand d options answer Hall Ht Ho Ha Hnotin.
    unfold generate_crypto_question_google. cbn [generate_outcome].
    by rewrite (validate_rejects_mc rand d options answer).
Qed.

Lemma mc_answer_in_options_witness :
  (exists options answer,
      Py.subscript four_options "options" = Some (PyList options) /\
      Py.subscript four_options "answer" = Some answer /\
      Py.in_list answer options = true) /\
  generate_crypto_question_google [] (Parsed (PyDict answer_missing)) (fun i => i) =
    Returns PyNone [error_validation AnswerNotInOptions].
Proof.
  split.
  - apply (proj1 mc_answer_in_options [] (Parsed four_options) (fun i => i)
             four_options [] (PyStr "mc")); reflexivity.
  - apply (proj2 mc_answer_in_options [] (fun i => i) answer_missing
             [PyStr "{a}"; PyStr "{c}"; PyStr "{d}"; PyStr "{e}"; PyStr "{f}"]%string
             (PyStr "{b}")); try reflexivity.
    repeat (apply Forall_cons; split); try (by eexists); constructor.
Defined.

(** ** True-false questions (C2) *)

(** C2, as stated, fails: the answer ["True"] of a true-false question is
    rejected, and the answer ["Verdadero"] is accepted. *)
Lemma tf_answer_True_rejected :
  generate_crypto_question_google [] (Parsed (PyDict (tf_question "True")))
    (fun i => i) =
    Returns PyNone [error_validation AnswerNotVerdaderoFalso] /\
  generate_crypto_question_google [] (Parsed (PyDict (tf_question "Verdadero")))
    (fun i => i) =
    Returns (PyDict (tf_question "Verdadero")) [].
Proof. split; vm_compute; reflexivity. Qed.

(** C2 (amended): a response of type ["tf"] that passes the other checks (a
    dict with the required keys, a list of options, an explanation that has a
    length) is returned if and only if its answer is exactly the string
    ["Verdadero"] or exactly the string ["Falso"]; with any other answer the
    generator reports the [ValueError] and returns [None]. *)
Theorem tf_answer_verdadero_falso (page : list ui) (rand : nat -> nat)
    (d : list (string * pyval)) (options : list pyval)
    (answer explanation : pyval) :
  Forall (fun key => is_Some (Py.dict_get d key)) required_keys ->
  Py.dict_get d "type" = Some (PyStr "tf") ->
  Py.dict_get d "options" = Some (PyList options) ->
  Py.dict_get d "answer" = Some answer ->
  Py.dict_get d "explanation" = Some explanation ->
  is_Some (Py.len explanation) ->
  (answer = PyStr "Verdadero" \/ answer = PyStr "Falso" <->
   returned (generate_crypto_question_google page (Parsed (PyDict d)) rand) =
     Some (PyDict d)) /\
  (~ (answer = PyStr "Verdadero" \/ answer = PyStr "Falso") ->
   generate_outcome (Parsed (PyDict d)) rand =
     inl (ValueError AnswerNotVerdaderoFalso) /\
   generate_crypto_question_google page (Parsed (PyDict d)) rand =
     Returns PyNone [error_validation AnswerNotVerdaderoFalso]).
Proof.
  intros Hall Ht Ho Ha He Hlen.
  assert (Hrej : ~ (answer = PyStr "Verdadero" \/ answer = PyStr "Falso") ->
                 validate rand (PyDict d) = inl (ValueError AnswerNotVerdaderoFalso)).
  { intros Hno. apply (validate_rejects_tf rand d options answer); auto.
    apply not_true_is_false. by rewrite in_list_verdadero_falso. }
  split; [split|].
  - intros Hans%in_list_verdadero_falso.
    assert (Hv : validated d (PyStr "tf") options answer explanation).
    { repeat (apply Forall_cons in Hall as [? Hall]).
      constructor; auto. discriminate. }
    destruct (validate_accepts rand _ _ _ _ _ Hv) as [warned Hacc].
    unfold generate_crypto_question_google. cbn [generate_outcome].
    rewrite Hacc. reflexivity.
  - intros Hret.
    destruct (Py.in_list answer [PyStr "Verdadero"; PyStr "Falso"]) eqn:Hin;
      [by apply in_list_verdadero_falso|].
    assert (Hno : ~ (answer = PyStr "Verdadero" \/ answer = PyStr "Falso"))
      by (rewrite <- in_list_verdadero_falso; congruence).
    unfold generate_crypto_question_google in Hret. cbn [generate_outcome] in Hret.
    rewrite (Hrej Hno) in Hret. discriminate.
  - intros Hno. unfold generate_crypto_question_google. cbn [generate_outcome].
    by rewrite (Hrej Hno).
Qed.

Lemma tf_answer_verdadero_falso_witness :
  (PyStr "Falso" = PyStr "Verdadero" \/ PyStr "Falso" = PyStr "Falso" <->
   returned (generate_crypto_question_google []
               (Parsed (PyDict (tf_question "Falso"))) (fun i => i)) =
   Some (PyDict (tf_question "Falso"))).
Proof.
  apply (tf_answer_verdadero_falso [] (fun i => i) (tf_question "Falso")
           [PyStr "True"; PyStr "False"]%string (PyStr "Falso")
           (PyStr "Ningún elemento del vacío queda fuera de otro conjunto."));
    try reflexivity.
  - repeat (apply Forall_cons; split); try (by eexists); constructor.
  - by eexists.
Defined.

(** ** The shuffle of the options (C8) *)

(** C8: the question returned for a validated response has the fields of
    the response under every key but ["options"]; when its type is ["mc"]
    its options are a permutation of the options of the response; when its
    type is anything else the question is the response itself, options
    included. *)
Theorem shuffle_permutes_options (page : list ui) (response : model_response)
    (rand : nat -> nat) (q : pyval) (msgs : list ui) :
  generate_crypto_question_google page response rand = Returns q msgs ->
  q <> PyNone ->
  exists d type options,
    response = Parsed (PyDict d) /\
    Py.dict_get d "type" = Some type /\
    Py.dict_get d "options" = Some (PyList options) /\
    (forall key, key <> "options"%string ->
                 Py.subscript q key = Py.dict_get d key) /\
    (Py.eq type (PyStr "mc") = true ->
     exists shuffled,
       Py.subscript q "options" = Some (PyList shuffled) /\
       shuffled ≡ₚ options) /\
    (Py.eq type (PyStr "mc") = false -> q = PyDict d).
Proof.
  intros Hgen Hq.
  apply generate_returns in Hgen
    as (d & type & options & answer & expl & -> & Hv & ->); [|done].
  exists d, type, options. split; [reflexivity|].
  split; [exact (v_type _ _ _ _ _ Hv)|].
  split; [exact (v_options _ _ _ _ _ Hv)|].
  split; [|split].
  - intros key Hkey. by apply returned_question_get.
  - intros Hmc. exists (Py.shuffle rand options).
    rewrite (returned_question_options _ _ _ _ (v_options _ _ _ _ _ Hv)), Hmc.
    split; [reflexivity | apply shuffle_Permutation].
  - intros Hmc. unfold returned_question. by rewrite Hmc.
Qed.

Lemma shuffle_permutes_options_witness :
  exists d type options,
    Parsed four_options = Parsed (PyDict d) /\
    Py.dict_get d "type" = Some type /\
    Py.dict_get d "options" = Some (PyList options) /\
    (forall key, key <> "options"%string ->
       Py.subscript four_options_shuffled key = Py.dict_get d key) /\
    (Py.eq type (PyStr "mc") = true ->
     exists shuffled,
       Py.subscript four_options_shuffled "options" = Some (PyList shuffled) /\
       shuffled ≡ₚ options) /\
    (Py.eq type (PyStr "mc") = false -> four_options_shuffled = PyDict d).
Proof.
  apply (shuffle_permutes_options [] (Parsed four_options) (fun _ => 0%nat) _ []).
  - reflexivity.
  - discriminate.
Defined.

Example four_options_shuffled_options :
  Py.subscript four_options_shuffled "options" =
  Some (PyList [PyStr "{3}"; PyStr "{1}"; PyStr "{4}"; PyStr "{1}"]).
Proof. reflexivity. Qed.

(** ** The retry loop *)

#[local] Arguments Py.subscript : simpl never.
#[local] Arguments Py.truthy : simpl never.
#[local] Arguments Py.contains : simpl never.
#[local] Arguments generate_crypto_question_google : simpl never.

(** A question is returned whatever the page holds: only the text area of
    a text that is not JSON depends on the page. *)
Lemma generate_page_irrelevant (page page' : list ui)
    (response : model_response) (rand : nat -> nat) (q : pyval)
    (msgs : list ui) :
  generate_crypto_question_google page response rand = Returns q msgs ->
  q <> PyNone ->
  generate_crypto_question_google page' response rand = Returns q msgs.
Proof.
  intros Hgen Hq.
  destruct (generate_returns _ _ _ _ _ Hgen Hq) as (d & ? & ? & ? & ? & -> & _).
  exact Hgen.
Qed.

(** A question returned on one page is returned on every page. *)
Lemma novel_on_page (w : widgets) (n : nat) (s : SessionState)
    (page : list ui) (q text : pyval) :
  returned (generate_crypto_question_google page (model w n) (rand w n)) =
    Some q ->
  Py.truthy q = true ->
  Py.subscript q "question" = Some text ->
  Py.hashable text = true ->
  set_contains (asked_questions_set s) text = false ->
  novel w n s q text.
Proof.
  intros Hgen Htruthy Htext Hhash Hnew. split; [|done]. intros page'.
  destruct (generate_crypto_question_google page _ _) as [q' msgs|] eqn:Hpage;
    [|discriminate].
  injection Hgen as ->.
  rewrite (generate_page_irrelevant page page' _ _ q msgs Hpage);
    [reflexivity|]. by intros ->.
Qed.

Lemma attempt_cases (w : widgets) (n : nat) (s : SessionState) (msgs : list ui) :
  match attempt w n s msgs with
  | inl (s', msgs') =>
      s' = s /\ fails_or_duplicate w n s msgs /\
      msgs' = msgs ++ messages (generate_crypto_question_google msgs
                                  (model w n) (rand w n))
  | inr (Exited q s' n' _) =>
      n' = n /\ exists text, novel w n s q text /\ s' = remember text s
  | inr (Raised s' n' _) => n' = n /\ s' = s
  end.
Proof.
  unfold attempt, novel, fails_or_duplicate.
  destruct (generate_crypto_question_google _ _ _) as [q gen_msgs|gen_msgs]
    eqn:Hgen; [|done].
  cbn [returned messages].
  destruct (Py.truthy q) eqn:Htruthy.
  - destruct (Py.subscript q "question") as [text|] eqn:Htext; [|done].
    destruct (Py.hashable text) eqn:Hhash; cbn [negb]; [|done].
    destruct (set_contains (asked_questions_set s) text) eqn:Hdup; cbn [negb].
    + split; [reflexivity|]. split; [|reflexivity].
      exists q. split; [reflexivity|]. right. by exists text.
    + split; [reflexivity|]. exists text. split.
      * apply (novel_on_page w n s msgs); auto. by rewrite Hgen.
      * unfold remember, set_add. by rewrite Hdup.
  - split; [reflexivity|]. split; [|reflexivity].
    exists q. split; [reflexivity|].
    apply generate_returns_none_or_truthy in Hgen as [->|Ht]; [by left|congruence].
Qed.

(** An attempt that fails or repeats a text lets the loop go on, with what
    it showed added to the page. *)
Lemma attempt_continues (w : widgets) (n : nat) (s : SessionState)
    (msgs : list ui) :
  fails_or_duplicate w n s msgs ->
  attempt w n s msgs =
  inl (s, msgs ++ messages (generate_crypto_question_google msgs
                              (model w n) (rand w n))).
Proof.
  intros (q & Hgen & Hfail). unfold attempt.
  destruct (generate_crypto_question_google _ _ _) as [q' gen_msgs|];
    [|discriminate].
  injection Hgen as ->. cbn [messages].
  destruct Hfail as [->|(text & Htext & Hhash & Hdup)]; [reflexivity|].
  by rewrite (subscript_truthy _ _ _ Htext), Htext, Hhash, Hdup.
Qed.

Lemma attempt_accepts (w : widgets) (n : nat) (s : SessionState)
    (msgs : list ui) (q text : pyval) :
  novel w n s q text ->
  exists msgs', attempt w n s msgs = inr (Exited q (remember text s) n msgs').
Proof.
  intros (Hgen & Htruthy & Htext & Hhash & Hnew). unfold attempt.
  specialize (Hgen msgs).
  destruct (generate_crypto_question_google _ _ _) as [q' gen_msgs|];
    [|discriminate].
  injection Hgen as ->.
  rewrite Htruthy, Htext, Hhash, Hnew. cbn [negb].
  unfold remember, set_add. rewrite Hnew. eauto.
Qed.

Lemma rendered_next (w : widgets) (n : nat) :
  rendered w (n + 1) =
  rendered w n ++
  messages (generate_crypto_question_google (rendered w n)
              (model w (n + 1)%nat) (rand w (n + 1)%nat)).
Proof. rewrite Nat.add_1_r. reflexivity. Qed.

(** How the loop is left: without a question after the last attempt; with
    a novel question, whose text is then remembered; or by the exception.
    The state is touched in the second case only. *)
Lemma generation_loop_cases (w : widgets) (remaining attempts : nat)
    (s : SessionState) (msgs : list ui) :
  match generation_loop w remaining attempts s msgs with
  | Exited q s' n _ =>
      (q = PyNone /\ s' = s /\ n = (attempts + remaining)%nat) \/
      (exists text, novel w n s q text /\ s' = remember text s /\
                    (attempts < n <= attempts + remaining)%nat)
  | Raised s' n _ =>
      s' = s /\ (attempts < n <= attempts + remaining)%nat
  end.
Proof.
  revert attempts msgs.
  induction remaining as [|remaining IH]; intros attempts msgs;
    cbn [generation_loop].
  - left. repeat split. lia.
  - pose proof (attempt_cases w (attempts + 1) s msgs) as Hcases.
    destruct (attempt w (attempts + 1) s msgs) as [[s1 msgs1]|[q s1 n msgs1|s1 n msgs1]].
    + destruct Hcases as [-> _].
      specialize (IH (attempts + 1)%nat msgs1).
      destruct (generation_loop w remaining (attempts + 1) s msgs1)
        as [q s2 n msgs2|s2 n msgs2].
      * destruct IH as [(-> & -> & ->)|(text & Hnovel & -> & Hn)].
        -- left. repeat split. lia.
        -- right. exists text. split; [exact Hnovel|]. split; [reflexivity | lia].
      * destruct IH as [-> Hn]. split; [reflexivity | lia].
    + destruct Hcases as [-> (text & Hnovel & ->)].
      right. exists text. split; [exact Hnovel|]. split; [reflexivity | lia].
    + destruct Hcases as [-> ->]. split; [reflexivity | lia].
Qed.

(** When every remaining attempt fails or repeats a text, on the page the
    attempts before it leave, the loop runs them all and leaves no
    question. *)
Lemma generation_loop_exhausted (w : widgets) (remaining attempts : nat)
    (s : SessionState) :
  (forall i, (attempts < i <= attempts + remaining)%nat ->
             fails_or_duplicate w i s (rendered w (i - 1))) ->
  generation_loop w remaining attempts s (rendered w attempts) =
  Exited PyNone s (attempts + remaining) (rendered w (attempts + remaining)).
Proof.
  revert attempts.
  induction remaining as [|remaining IH]; intros attempts Hfails;
    cbn [generation_loop].
  - by rewrite Nat.add_0_r.
  - rewrite attempt_continues.
    + rewrite <- rendered_next, IH.
      * f_equal; [lia | f_equal; lia].
      * intros i Hi. apply Hfails. lia.
    + replace (rendered w attempts) with (rendered w (attempts + 1 - 1))
        by (f_equal; lia).
      apply Hfails. lia.
Qed.

(** The loop stops at the first attempt that yields a novel question. *)
Lemma generation_loop_first_novel (w : widgets) (remaining attempts k : nat)
    (s : SessionState) (q text : pyval) :
  (attempts < k <= attempts + remaining)%nat ->
  (forall i, (attempts < i < k)%nat ->
             fails_or_duplicate w i s (rendered w (i - 1))) ->
  novel w k s q text ->
  exists msgs',
    generation_loop w remaining attempts s (rendered w attempts) =
    Exited q (remember text s) k msgs'.
Proof.
  revert attempts.
  induction remaining as [|remaining IH]; intros attempts Hk Hfails Hnovel;
    [lia|].
  cbn [generation_loop].
  destruct (decide (k = (attempts + 1)%nat)) as [->|Hne].
  - destruct (attempt_accepts w (attempts + 1) s (rendered w attempts) q text
                Hnovel) as [msgs' ->]. by exists msgs'.
  - rewrite attempt_continues.
    + rewrite <- rendered_next.
      apply IH; [lia| |exact Hnovel]. intros i Hi. apply Hfails. lia.
    + replace (rendered w attempts) with (rendered w (attempts + 1 - 1))
        by (f_equal; lia).
      apply Hfails. lia.
Qed.

(** ** The transitions of the session *)

Lemma is_none_true (x : pyval) : Py.is_none x = true <-> x = PyNone.
Proof. destruct x; cbn; split; congruence. Qed.

Lemma set_question_requested_back (s : SessionState) :
  question_requested s = false ->
  set_question_requested false (set_question_requested true s) = s.
Proof. destruct s; cbn. by intros ->. Qed.

Lemma show_question_step (w : widgets) (s : SessionState) (msgs : list ui) :
  quiz_finished s = false ->
  step w s (state_after (show_question w s msgs)).
Proof.
  intros Hfin. unfold show_question.
  destruct (Py.truthy (current_question s)) eqn:Hq.
  - destruct (submitted s) eqn:Hsub; cbn [negb andb].
    + destruct (Py.truthy (feedback s)); [|apply step_stay].
      destruct (feedback_renders _ _); [|apply step_stay].
      destruct (total_questions s <? max_questions s) eqn:Hlt.
      * unfold st_button. case_bool_decide; cbn [andb negb state_after];
          [|apply step_stay].
        apply step_next; auto. lia.
      * unfold st_button. case_bool_decide; cbn [andb negb state_after];
          [|apply step_stay].
        apply step_results; auto. lia.
    + destruct (Py.subscript (current_question s) "question");
        [|apply step_stay].
      destruct (Py.subscript (current_question s) "options");
        [|apply step_stay].
      unfold st_button. case_bool_decide as Hclick; cbn [andb];
        [|by apply step_radio].
      destruct (Py.is_none (radio w)) eqn:Hradio; cbn [negb];
        [by apply step_radio|].
      destruct (Py.subscript (current_question s) "answer") eqn:Hanswer;
        cbn [state_after].
      * apply step_submit; auto. intros Hnone. by rewrite Hnone in Hradio.
      * by apply step_submit_raised.
  - destruct (_ && _); apply step_stay.
Qed.

(** Every run of the script is one of the transitions. *)
Lemma script_step (w : widgets) (s : SessionState) :
  step w s (state_after (script w s)).
Proof.
  unfold script. destruct (quiz_finished s) eqn:Hfin; cbn [negb].
  - unfold show_results, st_button.
    case_bool_decide; cbn [andb negb state_after]; [|apply step_stay].
    by apply step_restart.
  - unfold request_question.
    destruct (Py.is_none (current_question s) && negb (question_requested s))
      eqn:Hguard; [|by apply show_question_step].
    apply andb_true_iff in Hguard as [Hnone%is_none_true Hreq%negb_true_iff].
    assert (Hidle : forall msgs, state_after (show_question w s msgs) = s).
    { intros msgs. unfold show_question. rewrite Hnone. cbn [Py.truthy].
      replace (Py.truthy PyNone) with false by reflexivity.
      by destruct (_ && _). }
    destruct (total_questions s <? max_questions s) eqn:Hlt.
    + pose proof (generation_loop_cases w max_attempts 0
                    (set_question_requested true s) []) as Hloop.
      destruct (generation_loop _ _ _ _ _) as [q s' n msgs|s' n msgs].
      * destruct Hloop as [(-> & -> & _)|(text & Hnovel & -> & Hn)].
        -- replace (Py.truthy PyNone) with false by reflexivity.
           rewrite set_question_requested_back by done.
           rewrite Hidle. apply step_stay.
        -- destruct Hnovel as (Hgen & Htruthy & Hnovel). rewrite Htruthy.
           cbn [state_after]. apply (step_store w s n); auto; [lia|].
           by split.
      * destruct Hloop as [-> _]. cbn [state_after].
        apply step_raised; auto. lia.
    + rewrite Hfin. cbn [negb]. rewrite andb_true_r.
      destruct (total_questions s =? max_questions s) eqn:Heq.
      * cbn [state_after]. apply step_finish; auto. lia.
      * rewrite Hidle. apply step_stay.
Qed.

(** ** The invariant of the session *)

Ltac unfold_setters :=
  unfold set_current_question, set_question_requested, set_user_answer,
    set_submitted, set_feedback, set_correct_count, set_total_questions,
    set_quiz_finished, set_asked_questions_set in *;
  cbn in *.

Lemma novel_is_question (w : widgets) (n : nat) (s : SessionState)
    (q text : pyval) :
  novel w n s q text -> is_question q.
Proof.
  intros (Hgen & Htruthy & Htext & Hhash & _). specialize (Hgen []).
  destruct (generate_crypto_question_google _ _ _) as [q' msgs|] eqn:Hgen';
    [|discriminate].
  injection Hgen as ->.
  apply generate_returns in Hgen'
    as (d & type & options & answer & expl & _ & Hv & ->);
    [|by intros ->].
  exists text, (if Py.eq type (PyStr "mc") then Py.shuffle (rand w n) options
                else options), answer.
  split; [exact Htext|]. split; [exact Hhash|]. split.
  - apply returned_question_options, (v_options _ _ _ _ _ Hv).
  - rewrite returned_question_get by done. exact (v_answer _ _ _ _ _ Hv).
Qed.

Lemma truthy_not_none (x : pyval) : Py.truthy x = true -> x <> PyNone.
Proof. by intros Ht ->. Qed.

Lemma invariant_initial : invariant initial_state.
Proof. constructor; cbn; try done; lia. Qed.

Lemma invariant_step (w : widgets) (s s' : SessionState) :
  invariant s -> step w s s' -> invariant s'.
Proof.
  intros Hinv Hstep.
  destruct Hstep as
    [ | n q text Hfin Hnone Hreq Hlt Hn Hnovel
      | Hfin Hnone Hreq Hlt
      | Hfin Hnone Hreq Heq
      | Hfin Hq%truthy_not_none Hsub
      | correct_answer Hfin Hq%truthy_not_none Hsub Hclick Hradio Hanswer
      | Hfin Hq%truthy_not_none Hsub Hclick Hanswer
      | Hfin Hq%truthy_not_none Hsub Hclick Hlt
      | Hfin Hq%truthy_not_none Hsub Hclick Hge
      | Hfin Hclick ].
  - exact Hinv.
  - pose proof (novel_is_question _ _ _ _ _ Hnovel) as Hisq.
    destruct Hnovel as (_ & Hq%truthy_not_none & _).
    destruct Hinv as [Hmax Hscore Htotal Hfinished _ _ _ Hasked].
    rewrite Hnone in Hasked. cbn in Hasked.
    constructor; cbn; auto; try congruence.
    rewrite length_app. cbn.
    replace (Py.is_none q) with false by (by destruct q). cbn. lia.
  - destruct Hinv. by constructor.
  - destruct Hinv as [Hmax Hscore Htotal _ _ _ _ Hasked].
    rewrite Hnone in Hasked. cbn in Hasked.
    constructor; cbn; auto; try done; try lia.
  - destruct Hinv. by constructor.
  - destruct Hinv as [Hmax Hscore Htotal Hfinished Hisq Hunans _ Hasked].
    specialize (Hunans Hq Hsub). rewrite Hsub, orb_false_r in Hasked.
    replace (Py.is_none (current_question s)) with false in Hasked
      by (by destruct (current_question s)).
    unfold score_answer. cbn [user_answer set_submitted set_user_answer].
    destruct (Py.eq (radio w) correct_answer);
      constructor; cbn; auto; try congruence; try lia;
      rewrite orb_true_r; lia.
  - destruct (inv_question s Hinv Hq) as (? & ? & answer & _ & _ & _ & Hsome).
    congruence.
  - destruct Hinv as [Hmax Hscore Htotal Hfinished Hisq Hunans _ Hasked].
    rewrite Hsub, orb_true_r in Hasked.
    constructor; cbn; auto; try done; try congruence.
  - destruct Hinv as [Hmax Hscore Htotal Hfinished Hisq Hunans _ Hasked].
    rewrite Hsub, orb_true_r in Hasked.
    constructor; cbn; auto; try done; try congruence.
    intros _. split; [lia | reflexivity].
  - destruct Hinv as [Hmax _ _ _ _ _ _ _].
    constructor; cbn; auto; try done; try lia.
Qed.

Lemma reachable_invariant (s : SessionState) : reachable s -> invariant s.
Proof.
  induction 1 as [|w s _ IH].
  - apply invariant_initial.
  - apply (invariant_step w s); [exact IH | apply script_step].
Qed.

(** ** A whole quiz *)

Lemma reachable_play (ws : list widgets) (s : SessionState) :
  reachable s -> reachable (play ws s).
Proof.
  revert s. induction ws as [|w ws IH]; intros s Hs; [exact Hs|].
  apply IH. by constructor.
Qed.

Example ten_correct_finishes :
  quiz_finished finished_state = true /\
  correct_count finished_state = 10 /\
  total_questions finished_state = 10 /\
  current_question finished_state = PyNone /\
  length (asked_questions_set finished_state) = 10%nat.
Proof. vm_compute. repeat split. Qed.

(** One correct and one wrong answer. *)
Example one_correct_one_wrong :
  let s := play (answer_question 0 "a" ++ [click SiguientePregunta]
                 ++ answer_question 1 "b") initial_state in
  correct_count s = 1 /\ total_questions s = 2 /\
  feedback s = PyStr incorrecto /\ submitted s = true.
Proof. vm_compute. repeat split. Qed.

(** A [ValueError] out of the model call reaches the handler of line 122
    with [question_data] unbound: the exception of line 125 leaves the
    generator and the run, after [question_requested] was set. *)
Example model_call_value_error :
  script {| clicked := None; radio := PyNone;
            model := fun _ => ApiRaises (ValueError FromModelCall);
            rand := fun _ j => j |} initial_state =
  {| state_after := set_question_requested true initial_state;
     shown := [error_validation FromModelCall];
     ended := Uncaught |}.
Proof. reflexivity. Qed.

Lemma reachable_finished_state : reachable finished_state.
Proof. apply reachable_play, reachable_initial. Qed.

Lemma reachable_showing_state : reachable showing_state.
Proof. apply reachable_play, reachable_initial. Qed.

(** ** The end of the quiz (C3) *)

(** C3: in every reachable state the number of answered questions is at
    most [max_questions], and the quiz is finished only with exactly
    [max_questions] answers; a run that sets [quiz_finished] does so with
    [total_questions = max_questions], and a run that clears it is the click
    on "Reiniciar Quiz". *)
Theorem quiz_finished_transitions (s : SessionState) :
  reachable s ->
  total_questions s <= max_questions s /\
  (quiz_finished s = true -> total_questions s = max_questions s) /\
  forall w : widgets,
    (quiz_finished s = false ->
     quiz_finished (state_after (script w s)) = true ->
     total_questions s = max_questions s /\
     total_questions (state_after (script w s)) =
       max_questions (state_after (script w s))) /\
    (quiz_finished s = true ->
     quiz_finished (state_after (script w s)) = false ->
     clicked w = Some ReiniciarQuiz /\
     state_after (script w s) = restart s).
Proof.
  intros Hreach. pose proof (reachable_invariant s Hreach) as Hinv.
  split; [exact (inv_total s Hinv)|].
  split; [intros Hfin; exact (proj1 (inv_finished s Hinv Hfin))|].
  intros w.
  pose proof (reachable_invariant _ (reachable_run w s Hreach)) as Hinv'.
  pose proof (script_step w s) as Hstep.
  pose proof (inv_total s Hinv) as Hle.
  set (s' := state_after (script w s)) in *. clearbody s'.
  split.
  - intros Hfin Hfin'.
    pose proof (proj1 (inv_finished _ Hinv' Hfin')) as Htotal'.
    split; [|exact Htotal'].
    destruct Hstep; cbn in Hfin'; try congruence; try lia.
    unfold score_answer in Hfin'. cbn in Hfin'.
    destruct (Py.eq (radio w) correct_answer); cbn in Hfin'; congruence.
  - intros Hfin Hfin'.
    destruct Hstep; try congruence. by split.
Qed.

Lemma quiz_finished_transitions_witness :
  total_questions finished_state <= max_questions finished_state /\
  (quiz_finished finished_state = true ->
   total_questions finished_state = max_questions finished_state) /\
  forall w : widgets,
    (quiz_finished finished_state = false ->
     quiz_finished (state_after (script w finished_state)) = true ->
     total_questions finished_state = max_questions finished_state /\
     total_questions (state_after (script w finished_state)) =
       max_questions (state_after (script w finished_state))) /\
    (quiz_finished finished_state = true ->
     quiz_finished (state_after (script w finished_state)) = false ->
     clicked w = Some ReiniciarQuiz /\
     state_after (script w finished_state) = restart finished_state).
Proof.
  apply (quiz_finished_transitions finished_state).
  apply reachable_play, reachable_initial.
Defined.

(** ** Sending an answer (C4) *)

(** C4: in a reachable state that shows a question, a click on "Enviar
    Respuesta" with a selected answer adds one to [total_questions], adds
    one to [correct_count] when the selection equals the answer of the
    question and nothing otherwise, sets [submitted] and stores a feedback
    message, and leaves the question, the history and the other flags as
    they were; and in every reachable state
    [0 <= correct_count <= total_questions]. *)
Theorem submit_answer :
  (forall (w : widgets) (s : SessionState),
      reachable s ->
      quiz_finished s = false ->
      current_question s <> PyNone ->
      submitted s = false ->
      radio w <> PyNone ->
      clicked w = Some EnviarRespuesta ->
      exists correct_answer,
        Py.subscript (current_question s) "answer" = Some correct_answer /\
        state_after (script w s) =
          {| current_question := current_question s;
             question_requested := question_requested s;
             user_answer := radio w;
             submitted := true;
             feedback := PyStr (if Py.eq (radio w) correct_answer
                                then correcto else incorrecto);
             correct_count := correct_count s +
                              (if Py.eq (radio w) correct_answer then 1 else 0);
             total_questions := total_questions s + 1;
             max_questions := max_questions s;
             quiz_finished := false;
             asked_questions_set := asked_questions_set s |}) /\
  (forall s : SessionState,
      reachable s -> 0 <= correct_count s <= total_questions s).
Proof.
  split.
  - intros w s Hreach Hfin Hq Hsub Hradio Hclick.
    pose proof (reachable_invariant s Hreach) as Hinv.
    destruct (inv_question s Hinv Hq)
      as (text & options & answer & Htext & _ & Hoptions & Hanswer).
    exists answer. split; [exact Hanswer|].
    unfold script, request_question. rewrite Hfin. cbn [negb].
    replace (Py.is_none (current_question s)) with false
      by (by destruct (current_question s)).
    cbn [andb]. unfold show_question, st_button.
    rewrite Hsub, Hclick. cbn [negb].
    rewrite (subscript_truthy _ _ _ Htext), Htext, Hoptions, Hanswer.
    rewrite bool_decide_eq_true_2 by reflexivity.
    replace (Py.is_none (radio w)) with false by (by destruct (radio w)).
    cbn [andb negb state_after]. unfold score_answer. cbn.
    destruct (Py.eq (radio w) answer); unfold_setters; f_equal; auto; lia.
  - intros s Hreach. exact (inv_score s (reachable_invariant s Hreach)).
Qed.

Lemma submit_answer_witness :
  (exists correct_answer,
      Py.subscript (current_question showing_state) "answer" = Some correct_answer /\
      state_after (script (choose "a" (Some EnviarRespuesta)) showing_state) =
        {| current_question := current_question showing_state;
           question_requested := question_requested showing_state;
           user_answer := PyStr "a";
           submitted := true;
           feedback := PyStr (if Py.eq (PyStr "a") correct_answer
                              then correcto else incorrecto);
           correct_count := correct_count showing_state +
                            (if Py.eq (PyStr "a") correct_answer then 1 else 0);
           total_questions := total_questions showing_state + 1;
           max_questions := max_questions showing_state;
           quiz_finished := false;
           asked_questions_set := asked_questions_set showing_state |}) /\
  0 <= correct_count finished_state <= total_questions finished_state.
Proof.
  split.
  - apply (proj1 submit_answer (choose "a" (Some EnviarRespuesta)) showing_state);
      try reflexivity; try discriminate.
    apply reachable_play, reachable_initial.
  - apply (proj2 submit_answer finished_state).
    apply reachable_play, reachable_initial.
Defined.

(** ** The retry loop gives up (C5) *)

(** The loop makes at most five attempts. When a question is due and each
    of the five attempts returns, with [None] or with a question whose text
    was asked, the run makes all five, stores no question, shows the error
    of line 196 and leaves [question_requested] false: the state is the one
    before the run, in which the next run requests a question again. *)
Lemma exhausted_without_exception (w : widgets) (s : SessionState) :
  (exit_attempts
     (generation_loop w max_attempts 0 (set_question_requested true s) []) <= 5)%nat /\
  (quiz_finished s = false ->
   current_question s = PyNone ->
   question_requested s = false ->
   total_questions s < max_questions s ->
   (forall n, (1 <= n <= 5)%nat ->
              fails_or_duplicate w n s (rendered w (n - 1))) ->
   exit_attempts
     (generation_loop w max_attempts 0 (set_question_requested true s) []) = 5%nat /\
   state_after (script w s) = s /\
   current_question (state_after (script w s)) = PyNone /\
   question_requested (state_after (script w s)) = false /\
   error_no_question 5 ∈ shown (script w s) /\
   ended (script w s) = RanToEnd).
Proof.
  split.
  - pose proof (generation_loop_cases w max_attempts 0
                  (set_question_requested true s) []) as Hloop.
    destruct (generation_loop _ _ _ _ _) as [q s' n msgs|s' n msgs];
      cbn [exit_attempts].
    + destruct Hloop as [(_ & _ & ->)|(text & _ & _ & Hn)];
        unfold max_attempts in *; lia.
    + destruct Hloop as [_ Hn]. unfold max_attempts in *. lia.
  - intros Hfin Hnone Hreq Hlt Hfails.
    pose proof (generation_loop_exhausted w max_attempts 0
                  (set_question_requested true s)) as Hloop.
    cbn [rendered Nat.add] in Hloop. rewrite Hloop.
    2:{ intros i Hi. apply Hfails. unfold max_attempts in Hi. lia. }
    cbn [exit_attempts].
    split; [reflexivity|].
    assert (Hrun : script w s =
                   {| state_after := s;
                      shown := (rendered w max_attempts ++ [error_no_question 5])
                               ++ [info_wait];
                      ended := RanToEnd |}).
    { unfold script, request_question.
      rewrite Hfin, Hnone, Hreq. cbn [negb Py.is_none andb].
      apply Z.ltb_lt in Hlt. rewrite Hlt, Hloop.
      2:{ intros i Hi. apply Hfails. unfold max_attempts in Hi. lia. }
      replace (Py.truthy PyNone) with false by reflexivity.
      rewrite set_question_requested_back by done.
      unfold show_question. rewrite Hnone, Hreq.
      replace (Py.truthy PyNone) with false by reflexivity.
      reflexivity. }
    rewrite Hrun. cbn [state_after shown ended].
    repeat split; auto.
    apply elem_of_app. left. apply elem_of_app. right. apply list_elem_of_singleton.
    reflexivity.
Qed.

(** Five texts that are not JSON, no two alike: the run gives up as
    announced. *)
Example five_texts_exhausted :
  exit_attempts
    (generation_loop never_json_varied max_attempts 0
       (set_question_requested true initial_state) []) = 5%nat /\
  state_after (script never_json_varied initial_state) = initial_state /\
  error_no_question 5 ∈ shown (script never_json_varied initial_state) /\
  ended (script never_json_varied initial_state) = RanToEnd.
Proof.
  assert (Hfails : forall n, (1 <= n <= 5)%nat ->
             fails_or_duplicate never_json_varied n initial_state
               (rendered never_json_varied (n - 1))).
  { intros n Hn. exists PyNone. split; [|by left].
    assert (n = 1 \/ n = 2 \/ n = 3 \/ n = 4 \/ n = 5)%nat
      as [->|[->|[->|[->| ->]]]] by lia; vm_compute; reflexivity. }
  pose proof (proj2 (exhausted_without_exception never_json_varied initial_state)
                eq_refl eq_refl eq_refl eq_refl Hfails)
    as (Hn & Hstate & _ & _ & Hshown & Hended).
  exact (conj Hn (conj Hstate (conj Hshown Hended))).
Qed.

(** C5 (the code misses the claim): an attempt can fail by an exception that
    leaves the generator, and then the run stops in the loop: no error of
    line 196 is shown and [question_requested] stays set. With the same
    text that is not JSON at each attempt, the second text area of line 118
    is refused and the run stops at the second attempt. With four failed
    model calls and then a response without text, the fifth attempt reaches
    the handler of [ValueError] with [question_data] unbound and the run
    stops there, all five attempts having failed. In the state such a run
    leaves, no later run requests a question. *)
Theorem failed_attempts_stop_run :
  script never_json initial_state =
    {| state_after := set_question_requested true initial_state;
       shown := [error_decode;
                 text_area_received "Lo siento, no puedo generar la pregunta.";
                 error_decode];
       ended := Uncaught |} /\
  exit_attempts
    (generation_loop never_json max_attempts 0
       (set_question_requested true initial_state) []) = 2%nat /\
  script blocked_at_fifth initial_state =
    {| state_after := set_question_requested true initial_state;
       shown := [error_general; error_general; error_general; error_general;
                 error_validation FromModelCall];
       ended := Uncaught |} /\
  exit_attempts
    (generation_loop blocked_at_fifth max_attempts 0
       (set_question_requested true initial_state) []) = 5%nat /\
  forall w : widgets,
    script w (set_question_requested true initial_state) =
    {| state_after := set_question_requested true initial_state;
       shown := [];
       ended := RanToEnd |}.
Proof.
  split; [vm_compute; reflexivity|].
  split; [vm_compute; reflexivity|].
  split; [vm_compute; reflexivity|].
  split; [vm_compute; reflexivity|].
  intros w. reflexivity.
Qed.

(** ** Duplicates (C6) *)

(** C6: an attempt that yields a question whose text is in the history
    stores nothing and lets the loop go on to the next attempt; and a run
    that leaves a question in [current_question] either found it there or
    generated it with a text that was not in the history, which the run
    adds to the history. *)
Theorem duplicate_never_accepted (w : widgets) (s : SessionState) :
  (forall (n : nat) (msgs : list ui) (q text : pyval),
      returned (generate_crypto_question_google msgs (model w n) (rand w n)) =
        Some q ->
      Py.subscript q "question" = Some text ->
      Py.hashable text = true ->
      set_contains (asked_questions_set s) text = true ->
      exists msgs', attempt w n s msgs = inl (s, msgs')) /\
  (current_question (state_after (script w s)) <> PyNone ->
   current_question (state_after (script w s)) = current_question s \/
   exists text,
     Py.subscript (current_question (state_after (script w s))) "question" =
       Some text /\
     set_contains (asked_questions_set s) text = false /\
     asked_questions_set (state_after (script w s)) =
       asked_questions_set s ++ [text] /\
     set_contains (asked_questions_set (state_after (script w s))) text = true).
Proof.
  split.
  - intros n msgs q text Hgen Htext Hhash Hdup. unfold attempt.
    destruct (generate_crypto_question_google _ _ _) as [q' gen_msgs|];
      [|discriminate].
    injection Hgen as ->.
    rewrite (subscript_truthy _ _ _ Htext), Htext, Hhash, Hdup.
    cbn [negb]. eauto.
  - pose proof (script_step w s) as Hstep.
    set (s' := state_after (script w s)) in *. clearbody s'.
    intros Hq.
    destruct Hstep as
      [ | n q text _ _ _ _ _ (_ & _ & Htext & Hhash & Hnew)
      | | | | correct_answer | | | | ];
      try (by left); try (by cbn in Hq).
    + right. exists text. cbn.
      repeat split; auto.
      unfold set_contains. rewrite in_list_app, orb_true_iff. right.
      unfold Py.in_list. cbn [existsb]. by rewrite eq_hashable_refl.
    + left. unfold score_answer. cbn.
      by destruct (Py.eq (radio w) correct_answer).
Qed.

Lemma duplicate_never_accepted_witness :
  (exists msgs', attempt repeat_then_new 1 awaiting_second [] =
                 inl (awaiting_second, msgs')) /\
  (current_question (state_after (script repeat_then_new awaiting_second)) =
     current_question awaiting_second \/
   exists text,
     Py.subscript
       (current_question (state_after (script repeat_then_new awaiting_second)))
       "question" = Some text /\
     set_contains (asked_questions_set awaiting_second) text = false /\
     asked_questions_set (state_after (script repeat_then_new awaiting_second)) =
       asked_questions_set awaiting_second ++ [text] /\
     set_contains
       (asked_questions_set (state_after (script repeat_then_new awaiting_second)))
       text = true).
Proof.
  split.
  - apply (proj1 (duplicate_never_accepted repeat_then_new awaiting_second)
             1%nat [] (question_number 0) (PyStr "A")); reflexivity.
  - apply (proj2 (duplicate_never_accepted repeat_then_new awaiting_second)).
    vm_compute. discriminate.
Defined.

Example duplicate_discarded_novel_stored :
  Py.subscript
    (current_question (state_after (script repeat_then_new awaiting_second)))
    "question" = Some (PyStr "B") /\
  asked_questions_set (state_after (script repeat_then_new awaiting_second)) =
    [PyStr "A"; PyStr "B"].
Proof. vm_compute. split; reflexivity. Qed.

(** ** Failed attempts leave the state alone (C10) *)

(** C10: an attempt that fails, the generator returning [None], or repeats
    an asked text leaves the whole session state as it was and lets the
    loop go on; whatever an attempt does, the state it leaves is the one it
    found or, when it accepts a novel question, that state with the text of
    the question added to the history and nothing else changed; and so is
    the state the whole loop leaves. *)
Theorem failed_attempt_keeps_state (w : widgets) (n : nat) (s : SessionState)
    (msgs : list ui) :
  (fails_or_duplicate w n s msgs ->
   exists msgs', attempt w n s msgs = inl (s, msgs')) /\
  match attempt w n s msgs with
  | inl (s', _) => s' = s
  | inr (Raised s' _ _) => s' = s
  | inr (Exited q s' _ _) =>
      exists text,
        novel w n s q text /\
        s' = {| current_question := current_question s;
                question_requested := question_requested s;
                user_answer := user_answer s;
                submitted := submitted s;
                feedback := feedback s;
                correct_count := correct_count s;
                total_questions := total_questions s;
                max_questions := max_questions s;
                quiz_finished := quiz_finished s;
                asked_questions_set := asked_questions_set s ++ [text] |}
  end /\
  match generation_loop w max_attempts 0 s msgs with
  | Exited q s' n' _ =>
      (q = PyNone /\ s' = s) \/
      (exists text,
          novel w n' s q text /\
          s' = remember text s)
  | Raised s' _ _ => s' = s
  end.
Proof.
  split; [|split].
  - intros Hfail. rewrite attempt_continues by done. eauto.
  - pose proof (attempt_cases w n s msgs) as Hcases.
    destruct (attempt w n s msgs) as [[s' msgs']|[q s' n' msgs'|s' n' msgs']].
    + exact (proj1 Hcases).
    + destruct Hcases as [_ (text & Hnovel & ->)]. by exists text.
    + exact (proj2 Hcases).
  - pose proof (generation_loop_cases w max_attempts 0 s msgs) as Hloop.
    destruct (generation_loop _ _ _ _ _) as [q s' n' msgs'|s' n' msgs'].
    + destruct Hloop as [(-> & -> & _)|(text & Hnovel & -> & _)];
        [by left | right; by exists text].
    + exact (proj1 Hloop).
Qed.

Lemma failed_attempt_keeps_state_witness :
  exists msgs', attempt never_json 1 showing_state [] = inl (showing_state, msgs').
Proof.
  apply (proj1 (failed_attempt_keeps_state never_json 1 showing_state [])).
  exists PyNone. split; [reflexivity | by left].
Defined.

(** ** Restart (C9) *)

(** In the initial state, a first attempt that yields a question stores
    it. *)
Lemma first_attempt_stored (w : widgets) (q text : pyval) :
  returned (generate_crypto_question_google [] (model w 1%nat) (rand w 1%nat)) =
    Some q ->
  Py.subscript q "question" = Some text ->
  Py.hashable text = true ->
  state_after (script w initial_state) =
    store_question q (remember text (set_question_requested true initial_state)).
Proof.
  intros Hgen Htext Hhash. unfold script, request_question.
  cbn [initial_state quiz_finished current_question question_requested
       total_questions max_questions negb Py.is_none andb].
  cbn [Z.ltb Z.compare max_attempts generation_loop].
  unfold attempt at 1. cbn [Nat.add].
  destruct (generate_crypto_question_google _ _ _) as [q' gen_msgs|];
    [|discriminate].
  injection Hgen as ->.
  rewrite (subscript_truthy _ _ _ Htext), Htext, Hhash.
  cbn [negb]. unfold set_contains at 1, Py.in_list at 1.
  cbn [existsb negb asked_questions_set set_question_requested initial_state].
  rewrite (subscript_truthy _ _ _ Htext).
  reflexivity.
Qed.

(** C9: in a reachable state in which the quiz is finished, a click on
    "Reiniciar Quiz" leaves the initial state: every field has its initial
    value and [max_questions] is still 10; and in the state it leaves, a run
    whose first attempt yields a question stores that question, whatever
    its text, even one asked before the restart. *)
Theorem restart_resets (w : widgets) (s : SessionState) :
  reachable s ->
  quiz_finished s = true ->
  clicked w = Some ReiniciarQuiz ->
  state_after (script w s) = initial_state /\
  max_questions (state_after (script w s)) = max_questions s /\
  max_questions s = 10 /\
  forall (w' : widgets) (q text : pyval),
    returned (generate_crypto_question_google [] (model w' 1%nat) (rand w' 1%nat)) =
      Some q ->
    Py.subscript q "question" = Some text ->
    Py.hashable text = true ->
    current_question (state_after (script w' (state_after (script w s)))) = q /\
    asked_questions_set (state_after (script w' (state_after (script w s)))) =
      [text].
Proof.
  intros Hreach Hfin Hclick.
  pose proof (inv_max s (reachable_invariant s Hreach)) as Hmax.
  assert (Hrun : state_after (script w s) = initial_state).
  { unfold script, show_results, st_button. rewrite Hfin, Hclick.
    rewrite bool_decide_eq_true_2 by reflexivity.
    cbn [negb andb state_after]. clear Hreach Hfin.
    destruct s. cbn in Hmax. subst. reflexivity. }
  rewrite Hrun.
  split; [reflexivity|]. split; [by rewrite Hmax|]. split; [exact Hmax|].
  intros w' q text Hgen Htext Hhash.
  by rewrite (first_attempt_stored w' q text Hgen Htext Hhash).
Qed.

Lemma restart_resets_witness :
  state_after (script (click ReiniciarQuiz) finished_state) = initial_state /\
  max_questions (state_after (script (click ReiniciarQuiz) finished_state)) =
    max_questions finished_state /\
  max_questions finished_state = 10 /\
  forall (w' : widgets) (q text : pyval),
    returned (generate_crypto_question_google [] (model w' 1%nat) (rand w' 1%nat)) =
      Some q ->
    Py.subscript q "question" = Some text ->
    Py.hashable text = true ->
    current_question
      (state_after
         (script w' (state_after (script (click ReiniciarQuiz) finished_state)))) =
      q /\
    asked_questions_set
      (state_after
         (script w' (state_after (script (click ReiniciarQuiz) finished_state)))) =
      [text].
Proof.
  apply (restart_resets (click ReiniciarQuiz) finished_state); try reflexivity.
  apply reachable_play, reachable_initial.
Defined.

(** Question 0, asked before the restart, is stored again after it. *)
Example asked_text_accepted_after_restart :
  set_contains (asked_questions_set finished_state) (PyStr "A") = true /\
  state_after (script (render 0)
                 (state_after (script (click ReiniciarQuiz) finished_state))) =
    showing_state.
Proof. vm_compute. split; reflexivity. Qed.

(** ** The hint of the prompt (C7) *)








(** ** More on the generator: what it returns and when it raises *)

(** X1: when the text did not parse, the generator returns [None] or an
    exception leaves it, and which of the two is decided as follows. The
    exception leaves it when the model call or [response.text] raised a
    [JSONDecodeError] or a [ValueError], when [json.loads] raised a
    [ValueError] that is not a [JSONDecodeError], and when the text is not
    JSON and the page already has a text area of line 118 with the same
    cleaned text: the handlers read [json_text] or [question_data] before
    the name is bound, or create the same widget twice. In every other case
    [None] is returned. *)
Theorem generator_raises_iff (page : list ui) (response : model_response)
    (rand : nat -> nat) :
  question_data_bound response = false ->
  (forall msgs,
      generate_crypto_question_google page response rand = Raises msgs <->
      (msgs = [error_decode] /\
       (response = ApiRaises JSONDecodeError \/
        response = TextRaises JSONDecodeError \/
        exists response_text,
          response = NotJson response_text /\
          text_area_shown (clean_json_text response_text) page = true)) \/
      (exists e,
          msgs = [error_validation e] /\
          (response = ApiRaises (ValueError e) \/
           response = TextRaises (ValueError e))) \/
      (msgs = [error_validation FromJsonLoads] /\ response = IntegerTooLong)) /\
  ((exists msgs, generate_crypto_question_google page response rand = Raises msgs) \/
   (exists msgs,
       generate_crypto_question_google page response rand = Returns PyNone msgs)).
Proof.
  intros Hunbound. unfold generate_crypto_question_google. split.
  - intros msgs. split.
    + destruct response as [[|e|]|[|e|]|response_text| | |question_data];
        cbn [generate_outcome raise question_data_bound response_bound];
        try discriminate.
      * intros [= <-]. left. split; [reflexivity|]. by left.
      * intros [= <-]. right. left. exists e. split; [reflexivity|]. by left.
      * intros [= <-]. left. split; [reflexivity|]. right. by left.
      * intros [= <-]. right. left. exists e. split; [reflexivity|]. by right.
      * destruct (text_area_shown _ _) eqn:Hshown; [|discriminate].
        intros [= <-]. left. split; [reflexivity|]. right. right.
        by exists response_text.
      * intros [= <-]. right. right. by split.
    + intros [(-> & [->|[->|(response_text & -> & Hshown)]])
             |[(e & -> & [->| ->])|(-> & ->)]];
        cbn [generate_outcome raise question_data_bound]; try reflexivity.
      by rewrite Hshown.
  - destruct response as [[|e|]|[|e|]|response_text| | |question_data];
      cbn [generate_outcome raise question_data_bound response_bound];
      try discriminate; eauto.
    destruct (text_area_shown _ _); eauto.
Qed.

Lemma generator_raises_iff_witness :
  generate_crypto_question_google
    [error_decode; text_area_received "no"] (NotJson " no ") (fun i => i) =
    Raises [error_decode] <->
  ([error_decode] = [error_decode] /\
   (NotJson " no " = ApiRaises JSONDecodeError \/
    NotJson " no " = TextRaises JSONDecodeError \/
    exists response_text,
      NotJson " no " = NotJson response_text /\
      text_area_shown (clean_json_text response_text)
        [error_decode; text_area_received "no"] = true)) \/
  (exists e,
      [error_decode] = [error_validation e] /\
      (NotJson " no " = ApiRaises (ValueError e) \/
       NotJson " no " = TextRaises (ValueError e))) \/
  ([error_decode] = [error_validation FromJsonLoads] /\
   NotJson " no " = IntegerTooLong).
Proof.
  apply (proj1 (generator_raises_iff [error_decode; text_area_received "no"]
                  (NotJson " no ") (fun i => i) eq_refl) [error_decode]).
Defined.

(** The text area of line 118 shows the cleaned text: a second text that
    differs from the first by its surrounding spaces is refused as well. *)
Example same_text_after_cleaning :
  generate_crypto_question_google [] (NotJson "no") (fun i => i) =
    Returns PyNone [error_decode; text_area_received "no"] /\
  generate_crypto_question_google
    [error_decode; text_area_received "no"] (NotJson " no ") (fun i => i) =
    Raises [error_decode] /\
  generate_crypto_question_google
    [error_decode; text_area_received "no"] (NotJson "nunca") (fun i => i) =
    Returns PyNone [error_decode; text_area_received "nunca"].
Proof. repeat split. Qed.

(** X2: a response whose JSON value is not an object is never returned.
    A list or a string that lacks one of the six key names as an element or
    a substring is reported as a validation error with the missing names;
    any other value fails on [in] or on the subscript and is reported as a
    general error. In both cases [None] is returned. *)
Theorem non_object_rejected (page : list ui) (question_data : pyval)
    (rand : nat -> nat) :
  Py.is_dict question_data = false ->
  generate_crypto_question_google page (Parsed question_data) rand =
  Returns PyNone
    match all_in question_data required_keys with
    | Some false =>
        [error_validation (MissingKeys (missing_keys question_data required_keys))]
    | _ => [error_general; error_details]
    end.
Proof.
  intros Hdict. unfold generate_crypto_question_google.
  cbn [generate_outcome question_data_bound response_bound]. unfold validate.
  destruct (all_in question_data required_keys) as [[|]|]; run_result;
    try reflexivity.
  destruct question_data; try discriminate; reflexivity.
Qed.

Lemma non_object_rejected_witness :
  generate_crypto_question_google []
    (Parsed (PyList [PyStr "question"; PyStr "answer"])) (fun i => i) =
  Returns PyNone
    [error_validation
       (MissingKeys ["type"; "options"; "difficulty"; "explanation"]%string)] /\
  generate_crypto_question_google []
    (Parsed (PyStr "question type options answer difficulty explanation"))
    (fun i => i) =
  Returns PyNone [error_general; error_details].
Proof.
  split.
  - apply (non_object_rejected [] (PyList [PyStr "question"; PyStr "answer"])).
    reflexivity.
  - apply (non_object_rejected []
             (PyStr "question type options answer difficulty explanation")).
    reflexivity.
Defined.

Lemma missing_keys_dict (d : list (string * pyval)) (keys : list string) :
  missing_keys (PyDict d) keys =
  filter (fun key => Py.dict_get d key = None) keys.
Proof.
  unfold missing_keys. induction keys as [|key keys IH]; [reflexivity|].
  rewrite !filter_cons, IH. unfold Py.contains.
  destruct (Py.dict_get d key) as [v|] eqn:Hget.
  - rewrite bool_decide_eq_true_2 by eauto.
    rewrite decide_False by (intros H; by apply H).
    by rewrite decide_False by discriminate.
  - rewrite bool_decide_eq_false_2 by (by intros [? ?]).
    rewrite decide_True by discriminate.
    by rewrite decide_True by reflexivity.
Qed.

Lemma all_in_dict_false (d : list (string * pyval)) (keys : list string) :
  filter (fun key => Py.dict_get d key = None) keys <> [] ->
  all_in (PyDict d) keys = Some false.
Proof.
  induction keys as [|key keys IH]; [done|].
  rewrite filter_cons. cbn [all_in]. unfold Py.contains.
  destruct (Py.dict_get d key) as [v|] eqn:Hget.
  - rewrite decide_False by discriminate.
    rewrite bool_decide_eq_true_2 by eauto. exact IH.
  - intros _. by rewrite bool_decide_eq_false_2 by (by intros [? ?]).
Qed.

(** X3: when an object lacks some of the six required keys, the generator
    returns [None] and reports a validation error that lists exactly the
    required keys the object lacks, in the order of [required_keys];
    nothing else of the object is looked at. *)
Theorem missing_keys_reported (page : list ui) (d : list (string * pyval))
    (rand : nat -> nat) :
  filter (fun key => Py.dict_get d key = None) required_keys <> [] ->
  generate_crypto_question_google page (Parsed (PyDict d)) rand =
  Returns PyNone
    [error_validation
       (MissingKeys (filter (fun key => Py.dict_get d key = None) required_keys))].
Proof.
  intros Hmissing. unfold generate_crypto_question_google.
  cbn [generate_outcome question_data_bound]. unfold validate.
  rewrite (all_in_dict_false _ _ Hmissing). run_result.
  by rewrite missing_keys_dict.
Qed.

Lemma missing_keys_reported_witness :
  generate_crypto_question_google [] (Parsed (PyDict [])) (fun i => i) =
  Returns PyNone [error_validation (MissingKeys required_keys)].
Proof.
  apply (missing_keys_reported [] [] (fun i => i)). discriminate.
Defined.

(** X4: an object that has the six keys but whose ["options"] is not a list
    is rejected with the validation error on the options, whatever its type
    and its answer. *)
Theorem options_not_list_rejected (page : list ui) (d : list (string * pyval))
    (options : pyval) (rand : nat -> nat) :
  Forall (fun key => is_Some (Py.dict_get d key)) required_keys ->
  Py.dict_get d "options" = Some options ->
  Py.is_list options = false ->
  generate_crypto_question_google page (Parsed (PyDict d)) rand =
  Returns PyNone [error_validation OptionsNotList].
Proof.
  intros Hall%all_in_dict Ho Hlist. unfold generate_crypto_question_google.
  cbn [generate_outcome question_data_bound]. unfold validate.
  rewrite Hall. unfold Py.subscript. rewrite Ho. run_result.
  rewrite Hlist. reflexivity.
Qed.

Lemma options_not_list_rejected_witness :
  generate_crypto_question_google []
    (Parsed (PyDict (Py.dict_set answer_missing "options" (PyStr "{b}"))))
    (fun i => i) =
  Returns PyNone [error_validation OptionsNotList].
Proof.
  apply (options_not_list_rejected [] _ (PyStr "{b}")); try reflexivity.
  repeat (apply Forall_cons; split); try (by eexists); constructor.
Defined.

(** X5: the check of the explanation is advisory only for values that have
    a length. For an object that passes the other checks, a string of at
    least 20 characters gives no message, a shorter string, a list or a dict
    gives the warning, and in all these cases the question is returned; an
    explanation that is [null], a boolean or a number makes [len] raise
    inside the warning, and the generator returns [None] with the general
    error. *)
Theorem explanation_check (page : list ui) (d : list (string * pyval))
    (type : pyval) (options : list pyval) (answer explanation : pyval)
    (rand : nat -> nat) :
  Forall (fun key => is_Some (Py.dict_get d key)) required_keys ->
  Py.dict_get d "type" = Some type ->
  Py.dict_get d "options" = Some (PyList options) ->
  Py.dict_get d "answer" = Some answer ->
  Py.dict_get d "explanation" = Some explanation ->
  (Py.eq type (PyStr "mc") = true -> Py.in_list answer options = true) ->
  (Py.eq type (PyStr "tf") = true ->
   Py.in_list answer [PyStr "Verdadero"; PyStr "Falso"] = true) ->
  generate_crypto_question_google page (Parsed (PyDict d)) rand =
  match explanation with
  | PyStr s =>
      Returns (returned_question rand d type options)
        (if Py.str_len s <? 20 then [warning_explanation] else [])
  | PyList _ | PyDict _ =>
      Returns (returned_question rand d type options) [warning_explanation]
  | PyNone | PyBool _ | PyInt _ =>
      Returns PyNone [error_general; error_details]
  end.
Proof.
  intros Hall%all_in_dict Ht Ho Ha He Hmc Htf.
  unfold generate_crypto_question_google.
  cbn [generate_outcome question_data_bound response_bound].
  unfold validate, returned_question, shuffle_options.
  rewrite Hall. unfold Py.subscript. rewrite Ho, Ht, Ha, He. run_result.
  cbn [Py.is_list]. run_result.
  assert (Hchecks :
            Py.eq type (PyStr "mc") && negb (Py.in_list answer options) = false /\
            Py.eq type (PyStr "tf") &&
              negb (Py.in_list answer [PyStr "Verdadero"; PyStr "Falso"]) = false).
  { split.
    - destruct (Py.eq type (PyStr "mc")); [|reflexivity]. by rewrite Hmc.
    - destruct (Py.eq type (PyStr "tf")); [|reflexivity]. by rewrite Htf. }
  destruct Hchecks as [-> ->].
  destruct explanation as [|b|n|s|l|e]; cbn [Py.is_str Py.len negb orb];
    run_result; try reflexivity.
  - destruct (Py.str_len s <? 20); run_result;
      destruct (Py.eq type (PyStr "mc")); reflexivity.
  - destruct (Py.eq type (PyStr "mc")); reflexivity.
  - destruct (Py.eq type (PyStr "mc")); reflexivity.
Qed.

Lemma explanation_check_witness :
  generate_crypto_question_google []
    (Parsed (PyDict (Py.dict_set (tf_question "Falso") "explanation" PyNone)))
    (fun i => i) =
  Returns PyNone [error_general; error_details] /\
  generate_crypto_question_google []
    (Parsed (PyDict (Py.dict_set (tf_question "Falso") "explanation" (PyStr "Es falso."))))
    (fun i => i) =
  Returns (PyDict (Py.dict_set (tf_question "Falso") "explanation" (PyStr "Es falso.")))
    [warning_explanation].
Proof.
  split.
  - apply (explanation_check [] _ (PyStr "tf") [PyStr "True"; PyStr "False"]%string
             (PyStr "Falso") PyNone); try reflexivity; try discriminate.
    repeat (apply Forall_cons; split); try (by eexists); constructor.
  - apply (explanation_check [] _ (PyStr "tf") [PyStr "True"; PyStr "False"]%string
             (PyStr "Falso") (PyStr "Es falso.")); try reflexivity; try discriminate.
    repeat (apply Forall_cons; split); try (by eexists); constructor.
Defined.

(** X6: the answer is compared with the options for type ["mc"] only. An
    object of any other type that passes the remaining checks is returned
    as it came, options in their order, even when the options are empty or
    none of them is the answer; a type that is neither ["mc"] nor ["tf"]
    has no check on the answer at all. *)
Theorem other_types_unchecked (page : list ui) (d : list (string * pyval))
    (type : pyval) (options : list pyval) (answer explanation : pyval)
    (rand : nat -> nat) :
  Forall (fun key => is_Some (Py.dict_get d key)) required_keys ->
  Py.dict_get d "type" = Some type ->
  Py.dict_get d "options" = Some (PyList options) ->
  Py.dict_get d "answer" = Some answer ->
  Py.dict_get d "explanation" = Some explanation ->
  is_Some (Py.len explanation) ->
  Py.eq type (PyStr "mc") = false ->
  (Py.eq type (PyStr "tf") = true ->
   answer = PyStr "Verdadero" \/ answer = PyStr "Falso") ->
  returned (generate_crypto_question_google page (Parsed (PyDict d)) rand) =
  Some (PyDict d).
Proof.
  intros Hall Ht Ho Ha He Hlen Hmc Htf.
  assert (Hv : validated d type options answer explanation).
  { repeat (apply Forall_cons in Hall as [? Hall]).
    constructor; auto; [congruence|].
    intros Histf. by apply in_list_verdadero_falso, Htf. }
  destruct (validate_accepts rand _ _ _ _ _ Hv) as [warned Hacc].
  unfold generate_crypto_question_google. cbn [generate_outcome].
  rewrite Hacc. cbn [returned]. unfold returned_question. by rewrite Hmc.
Qed.

Lemma other_types_unchecked_witness :
  returned (generate_crypto_question_google []
              (Parsed (PyDict (tf_question "Verdadero"))) (fun i => i)) =
    Some (PyDict (tf_question "Verdadero")) /\
  returned (generate_crypto_question_google []
              (Parsed (PyDict open_question)) (fun i => i)) =
    Some (PyDict open_question).
Proof.
  split.
  - apply (other_types_unchecked [] _ (PyStr "tf") [PyStr "True"; PyStr "False"]%string
             (PyStr "Verdadero")
             (PyStr "Ningún elemento del vacío queda fuera de otro conjunto."));
      try reflexivity; try (by eexists); [|by left].
    repeat (apply Forall_cons; split); try (by eexists); constructor.
  - apply (other_types_unchecked [] _ (PyStr "open") [] (PyInt 42)
             (PyStr "Se puede dar por comprensión: { 2k : k entero }."));
      try reflexivity; try (by eexists); [|discriminate].
    repeat (apply Forall_cons; split); try (by eexists); constructor.
Defined.

(** ** More on the shuffle *)

Lemma swap_length {A : Type} (x : list A) (i j : nat) :
  length (Py.swap x i j) = length x.
Proof. apply Permutation_length, swap_Permutation. Qed.

Lemma shuffle_from_length {A : Type} (rand : nat -> nat) (i : nat) (x : list A) :
  length (Py.shuffle_from rand i x) = length x.
Proof. apply Permutation_length, shuffle_from_Permutation. Qed.

(** The loop at index [i] reads the draws of the indices 1 to [i] only. *)
Lemma shuffle_from_ext {A : Type} (rand rand' : nat -> nat) (i : nat)
    (x : list A) :
  (forall k, (1 <= k <= i)%nat -> rand k = rand' k) ->
  Py.shuffle_from rand i x = Py.shuffle_from rand' i x.
Proof.
  revert x. induction i as [|i IH]; intros x Hrand; cbn [Py.shuffle_from];
    [reflexivity|].
  rewrite (Hrand (S i)) by lia. apply IH. intros k Hk. apply Hrand. lia.
Qed.

(** Below the end of a list, a swap and the loop leave the end alone. *)
Lemma swap_app {A : Type} (x suffix : list A) (i j : nat) :
  (i < length x)%nat -> (j < length x)%nat ->
  Py.swap (x ++ suffix) i j = Py.swap x i j ++ suffix.
Proof.
  intros Hi Hj. unfold Py.swap. rewrite !lookup_app_l by done.
  destruct (lookup_lt_is_Some_2 x i Hi) as [xi ->].
  destruct (lookup_lt_is_Some_2 x j Hj) as [xj ->].
  rewrite insert_app_l by done.
  rewrite insert_app_l by (by rewrite length_insert). reflexivity.
Qed.

Lemma shuffle_from_app {A : Type} (rand : nat -> nat) (i : nat)
    (x suffix : list A) :
  (i < length x)%nat ->
  Py.shuffle_from rand i (x ++ suffix) = Py.shuffle_from rand i x ++ suffix.
Proof.
  revert x. induction i as [|i IH]; intros x Hi; cbn [Py.shuffle_from];
    [reflexivity|].
  assert (Hj : (rand (S i) mod (S i + 1) < length x)%nat).
  { pose proof (Nat.mod_upper_bound (rand (S i)) (S i + 1)). lia. }
  rewrite swap_app by done. apply IH. rewrite swap_length. lia.
Qed.

(** Swapping the last element with the one at [j] puts that one last. *)
Lemma swap_last {A : Type} (x : list A) (a b : A) (j : nat) :
  (x ++ [a]) !! j = Some b ->
  exists x', Py.swap (x ++ [a]) (length x) j = x' ++ [b] /\
             length x' = length x.
Proof.
  intros Hj. unfold Py.swap.
  rewrite (list_lookup_middle x [] a (length x)) by reflexivity. rewrite Hj.
  replace (<[length x:=b]> (x ++ [a])) with (x ++ [b])
    by (rewrite insert_app_r_alt, Nat.sub_diag by lia; reflexivity).
  apply lookup_lt_Some in Hj as Hlt. rewrite length_app in Hlt. cbn in Hlt.
  destruct (decide (j = length x)) as [->|Hne].
  - rewrite (list_lookup_middle x [] a (length x)) in Hj by reflexivity.
    injection Hj as ->.
    exists x. split; [|reflexivity].
    rewrite insert_app_r_alt, Nat.sub_diag by lia. reflexivity.
  - exists (<[j:=a]> x). rewrite length_insert. split; [|reflexivity].
    rewrite insert_app_l by lia. reflexivity.
Qed.

(** X7: the shuffle can leave the options in any order: for every
    rearrangement of a list there are draws with which [random.shuffle]
    produces it, so no position is closed to the correct answer. *)
Theorem shuffle_reaches_every_order {A : Type} (l l' : list A) :
  l ≡ₚ l' -> exists rand : nat -> nat, Py.shuffle rand l = l'.
Proof.
  revert l. induction l' as [|b q IH] using rev_ind; intros l Hperm.
  - apply Permutation_nil_r in Hperm as ->. by exists (fun _ => 0%nat).
  - assert (Hlen : length l = S (length q)).
    { rewrite (Permutation_length Hperm), length_app. cbn. lia. }
    destruct l as [|a0 l0] using rev_ind; [discriminate|]. clear IHl0.
    rename l0 into x, a0 into a.
    rewrite length_app in Hlen. cbn in Hlen.
    assert (Hb : b ∈ x ++ [a]).
    { rewrite Hperm. apply elem_of_app. right. apply list_elem_of_singleton.
      reflexivity. }
    apply list_elem_of_lookup in Hb as [j Hj].
    destruct (swap_last x a b j Hj) as (x' & Hswap & Hlen').
    assert (Hperm' : x' ≡ₚ q).
    { apply (Permutation_app_inv_r [b]).
      rewrite <- Hswap, swap_Permutation. exact Hperm. }
    destruct (IH x' Hperm') as [rand' Hrand'].
    apply lookup_lt_Some in Hj as Hjlt. rewrite length_app in Hjlt. cbn in Hjlt.
    exists (fun k => if (k =? length x)%nat then j else rand' k).
    unfold Py.shuffle. rewrite length_app. cbn [length].
    replace (length x + 1 - 1)%nat with (length x) by lia.
    destruct (length x) as [|i] eqn:Hx.
    + destruct x; [|discriminate]. destruct x'; [|discriminate].
      cbn [Py.shuffle_from]. cbn in Hswap.
      assert (j = 0%nat) as -> by lia. cbn in Hj. injection Hj as ->.
      assert (q = []) as -> by (by apply Permutation_nil_l in Hperm').
      reflexivity.
    + cbn [Py.shuffle_from]. rewrite Nat.eqb_refl.
      rewrite Nat.mod_small by lia. rewrite Hswap.
      rewrite shuffle_from_app by lia. f_equal.
      rewrite <- Hrand'. unfold Py.shuffle. rewrite Hlen'.
      replace (S i - 1)%nat with i by lia.
      apply shuffle_from_ext. intros k Hk.
      destruct (Nat.eqb_spec k (S i)); [lia | reflexivity].
Qed.

Lemma shuffle_reaches_every_order_witness :
  exists rand : nat -> nat,
    Py.shuffle rand [PyStr "a"; PyStr "b"; PyStr "c"; PyStr "d"; PyStr "e"] =
    [PyStr "b"; PyStr "c"; PyStr "d"; PyStr "e"; PyStr "a"].
Proof.
  apply (shuffle_reaches_every_order
           [PyStr "a"; PyStr "b"; PyStr "c"; PyStr "d"; PyStr "e"]
           [PyStr "b"; PyStr "c"; PyStr "d"; PyStr "e"; PyStr "a"]).
  apply (Permutation_cons_append [PyStr "b"; PyStr "c"; PyStr "d"; PyStr "e"]).
Defined.

(** ** More on the retry loop *)

(** X8: the loop stops at the first attempt that yields a novel question:
    when a question is due, each attempt before attempt [k] returns, on the
    page the attempts before it leave, with [None] or with a question whose
    text was asked, and attempt [k], one of the five, yields a novel
    question, the run stores that question with its answer state cleared,
    adds its text to the history and asks for a rerun; what the model would
    answer to later attempts plays no part. *)
Theorem first_novel_question_stored (w : widgets) (s : SessionState)
    (k : nat) (q text : pyval) :
  quiz_finished s = false ->
  current_question s = PyNone ->
  question_requested s = false ->
  total_questions s < max_questions s ->
  (1 <= k <= 5)%nat ->
  (forall i, (1 <= i < k)%nat ->
             fails_or_duplicate w i s (rendered w (i - 1))) ->
  novel w k s q text ->
  exit_attempts
    (generation_loop w max_attempts 0 (set_question_requested true s) []) = k /\
  ended (script w s) = Rerun /\
  state_after (script w s) =
    {| current_question := q;
       question_requested := false;
       user_answer := PyNone;
       submitted := false;
       feedback := PyNone;
       correct_count := correct_count s;
       total_questions := total_questions s;
       max_questions := max_questions s;
       quiz_finished := false;
       asked_questions_set := asked_questions_set s ++ [text] |}.
Proof.
  intros Hfin Hnone Hreq Hlt Hk Hfails Hnovel.
  destruct (generation_loop_first_novel w max_attempts 0 k
              (set_question_requested true s) q text) as [msgs Hloop].
  { unfold max_attempts. lia. }
  { intros i Hi. apply Hfails. lia. }
  { exact Hnovel. }
  cbn [rendered] in Hloop.
  rewrite Hloop. cbn [exit_attempts]. split; [reflexivity|].
  unfold script, request_question.
  rewrite Hfin, Hnone, Hreq. cbn [negb Py.is_none andb].
  apply Z.ltb_lt in Hlt. rewrite Hlt, Hloop.
  destruct Hnovel as (_ & -> & _). cbn [ended state_after].
  split; [reflexivity|].
  clear -Hfin. destruct s. cbn in Hfin |- *. by subst.
Qed.

Lemma first_novel_question_stored_witness :
  exit_attempts
    (generation_loop repeat_then_new max_attempts 0
       (set_question_requested true awaiting_second) []) = 2%nat /\
  ended (script repeat_then_new awaiting_second) = Rerun /\
  state_after (script repeat_then_new awaiting_second) =
    {| current_question := question_number 1;
       question_requested := false;
       user_answer := PyNone;
       submitted := false;
       feedback := PyNone;
       correct_count := correct_count awaiting_second;
       total_questions := total_questions awaiting_second;
       max_questions := max_questions awaiting_second;
       quiz_finished := false;
       asked_questions_set := asked_questions_set awaiting_second ++ [PyStr "B"] |}.
Proof.
  apply (first_novel_question_stored repeat_then_new awaiting_second 2
           (question_number 1) (PyStr "B")); try reflexivity; try lia.
  - intros i Hi. assert (i = 1%nat) as -> by lia.
    exists (question_number 0). split; [reflexivity|].
    right. exists (PyStr "A"). repeat split.
  - repeat split.
Defined.

(** ** More invariants of the session *)

Lemma eq_hashable_sym (x y : pyval) :
  Py.hashable x = true -> Py.hashable y = true -> Py.eq x y = Py.eq y x.
Proof.
  destruct x as [|a|m|s|l|d], y as [|b|n|t|k|e]; cbn; try discriminate;
    intros _ _; unfold Py.eq; try reflexivity.
  - by destruct a, b.
  - apply Z.eqb_sym.
  - apply Z.eqb_sym.
  - apply Z.eqb_sym.
  - apply String.eqb_sym.
Qed.

Lemma distinct_texts_snoc (asked : list pyval) (text : pyval) :
  Forall (fun x => Py.hashable x = true) asked ->
  Py.hashable text = true ->
  distinct_texts asked ->
  set_contains asked text = false ->
  distinct_texts (asked ++ [text]).
Proof.
  intros Hhash Htext Hdistinct Hnew.
  assert (Hother : forall i x, asked !! i = Some x -> Py.eq x text = false).
  { intros i x Hi. unfold set_contains, Py.in_list in Hnew.
    apply not_true_is_false. intros Heq.
    assert (Hex : existsb (fun e => Py.eq e text) asked = true).
    { apply existsb_exists. exists x. split; [|exact Heq].
      apply list_elem_of_In, list_elem_of_lookup. by exists i. }
    congruence. }
  intros i j x y Hi Hj Hne.
  destruct (decide (i < length asked)%nat) as [Hilt|Hige];
    destruct (decide (j < length asked)%nat) as [Hjlt|Hjge].
  - rewrite lookup_app_l in Hi, Hj by done. by apply (Hdistinct i j).
  - rewrite lookup_app_l in Hi by done.
    rewrite lookup_app_r in Hj by lia.
    apply list_lookup_singleton_Some in Hj as [_ <-]. by apply (Hother i).
  - rewrite lookup_app_l in Hj by done.
    rewrite lookup_app_r in Hi by lia.
    apply list_lookup_singleton_Some in Hi as [_ <-].
    rewrite eq_hashable_sym; [by apply (Hother j)|done|].
    rewrite Forall_lookup in Hhash. by apply (Hhash j).
  - rewrite lookup_app_r in Hi, Hj by lia.
    apply list_lookup_singleton_Some in Hi as [Hi _].
    apply list_lookup_singleton_Some in Hj as [Hj _]. lia.
Qed.

Lemma novel_answerable (w : widgets) (n : nat) (s : SessionState)
    (q text : pyval) :
  novel w n s q text -> answerable q.
Proof.
  intros (Hgen & Htruthy & _) type Htype Hmc. specialize (Hgen []).
  destruct (generate_crypto_question_google _ _ _) as [q' msgs|] eqn:Hgen';
    [|discriminate].
  injection Hgen as ->.
  apply generate_returns in Hgen'
    as (d & type' & options & answer & expl & _ & Hv & ->);
    [|by intros ->].
  rewrite returned_question_get in Htype by done.
  rewrite (v_type _ _ _ _ _ Hv) in Htype. injection Htype as ->.
  rewrite (returned_question_options _ _ _ _ (v_options _ _ _ _ _ Hv)).
  rewrite returned_question_get by done. rewrite Hmc.
  eexists _, answer. split; [reflexivity|].
  split; [exact (v_answer _ _ _ _ _ Hv)|].
  rewrite (in_list_Permutation _ _ options) by apply shuffle_Permutation.
  by apply (v_mc _ _ _ _ _ Hv).
Qed.

Lemma invariant_more_initial : invariant_more initial_state.
Proof.
  constructor; cbn; done.
Qed.

Lemma invariant_more_step (w : widgets) (s s' : SessionState) :
  invariant s -> invariant_more s -> step w s s' -> invariant_more s'.
Proof.
  intros Hinv Hmore Hstep.
  assert (Hreq : Py.truthy (current_question s) = true ->
                 question_requested s = false).
  { intros Hq%truthy_not_none. destruct (question_requested s) eqn:Hr; [|done].
    by destruct (more_requested s Hmore Hr). }
  destruct Hstep as
    [ | n q text Hfin Hnone Hr Hlt Hn Hnovel
      | Hfin Hnone Hr Hlt
      | Hfin Hnone Hr Heq
      | Hfin Hq Hsub
      | correct_answer Hfin Hq Hsub Hclick Hradio Hanswer
      | Hfin Hq Hsub Hclick Hanswer
      | Hfin Hq Hsub Hclick Hlt
      | Hfin Hq Hsub Hclick Hge
      | Hfin Hclick ].
  - exact Hmore.
  - pose proof (novel_answerable _ _ _ _ _ Hnovel) as Hans.
    destruct Hnovel as (_ & _ & _ & Hhash & Hnew).
    destruct Hmore as [_ _ _ Hhashable Hdistinct _].
    constructor; cbn; auto; try congruence.
    + apply Forall_app. split; [exact Hhashable|]. by constructor.
    + by apply distinct_texts_snoc.
  - destruct Hmore. constructor; cbn; auto; try congruence; intros; repeat split; congruence.
  - destruct Hmore. constructor; cbn; auto; try congruence; intros; repeat split; congruence.
  - destruct Hmore. constructor; cbn; auto; try congruence; intros; repeat split; congruence.
  - destruct Hmore as [? ? ? ? ? ?].
    unfold score_answer. cbn [user_answer set_submitted set_user_answer].
    destruct (Py.eq (radio w) correct_answer);
      constructor; cbn; auto; try congruence; intros; repeat split; congruence.
  - apply truthy_not_none in Hq.
    destruct (inv_question s Hinv Hq) as (? & ? & answer & _ & _ & _ & Hsome).
    congruence.
  - destruct Hmore. constructor; cbn; auto; try congruence; intros; repeat split; congruence.
  - specialize (Hreq Hq). destruct Hmore.
    constructor; cbn; auto; try congruence; intros; repeat split; congruence.
  - destruct Hmore.
    constructor; cbn; auto; try congruence; try done; intros; repeat split; congruence.
Qed.

Lemma reachable_invariant_more (s : SessionState) :
  reachable s -> invariant_more s.
Proof.
  induction 1 as [|w s Hreach IH].
  - apply invariant_more_initial.
  - apply (invariant_more_step w s); [|exact IH|apply script_step].
    by apply reachable_invariant.
Qed.

(** ** A session that stops asking *)

Lemma script_idle (w : widgets) (s : SessionState) :
  quiz_finished s = false ->
  current_question s = PyNone ->
  question_requested s = true ->
  script w s = {| state_after := s; shown := []; ended := RanToEnd |}.
Proof.
  intros Hfin Hnone Hreq. unfold script, request_question.
  rewrite Hfin, Hnone, Hreq. cbn [negb Py.is_none andb].
  unfold show_question. rewrite Hnone, Hreq. reflexivity.
Qed.

(** X9: a reachable state with [question_requested] set is a dead end:
    every run from it, whatever is clicked and whatever the model would
    answer, shows nothing and leaves the state as it is, so no question is
    ever requested again in the session. *)
Theorem requested_flag_blocks_session (s : SessionState) :
  reachable s ->
  question_requested s = true ->
  (forall w : widgets,
      script w s = {| state_after := s; shown := []; ended := RanToEnd |}) /\
  (forall ws : list widgets, play ws s = s).
Proof.
  intros Hreach Hreq.
  destruct (more_requested s (reachable_invariant_more s Hreach) Hreq)
    as [Hnone Hfin].
  assert (Hidle : forall w, script w s =
                            {| state_after := s; shown := []; ended := RanToEnd |})
    by (intros w; by apply script_idle).
  split; [exact Hidle|].
  induction ws as [|w ws IH]; [reflexivity|].
  unfold play in *. cbn [fold_left]. by rewrite Hidle.
Qed.

Lemma requested_flag_blocks_session_witness :
  (forall w : widgets,
      script w blocked_state =
      {| state_after := blocked_state; shown := []; ended := RanToEnd |}) /\
  (forall ws : list widgets, play ws blocked_state = blocked_state).
Proof.
  apply (requested_flag_blocks_session blocked_state).
  - apply reachable_play, reachable_initial.
  - reflexivity.
Defined.

(** X10: when a question is due and the first attempt that neither fails
    nor repeats a text, each on the page the attempts before it leave,
    yields a question whose text is a list or an object, the membership
    test on the set raises [TypeError], which nothing catches: the run stops
    with no question stored, the history unchanged and [question_requested]
    left set. *)
Theorem unhashable_text_stops_run (w : widgets) (s : SessionState)
    (k : nat) (q text : pyval) :
  quiz_finished s = false ->
  current_question s = PyNone ->
  question_requested s = false ->
  total_questions s < max_questions s ->
  (1 <= k <= 5)%nat ->
  (forall i, (1 <= i < k)%nat ->
             fails_or_duplicate w i s (rendered w (i - 1))) ->
  returned (generate_crypto_question_google (rendered w (k - 1))
              (model w k) (rand w k)) = Some q ->
  Py.subscript q "question" = Some text ->
  Py.hashable text = false ->
  ended (script w s) = Uncaught /\
  state_after (script w s) = set_question_requested true s.
Proof.
  intros Hfin Hnone Hreq Hlt Hk Hfails Hgen Htext Hhash.
  assert (Hloop : forall remaining attempts,
             (attempts < k <= attempts + remaining)%nat ->
             exists msgs',
               generation_loop w remaining attempts
                 (set_question_requested true s) (rendered w attempts) =
               Raised (set_question_requested true s) k msgs').
  { induction remaining as [|remaining IH]; intros attempts Hrange; [lia|].
    cbn [generation_loop].
    destruct (decide (k = (attempts + 1)%nat)) as [->|Hne].
    - unfold attempt.
      replace (attempts + 1 - 1)%nat with attempts in Hgen by lia.
      destruct (generate_crypto_question_google _ _ _) as [q' gen_msgs|];
        [|discriminate].
      injection Hgen as ->.
      rewrite (subscript_truthy _ _ _ Htext), Htext, Hhash. cbn [negb]. eauto.
    - rewrite attempt_continues.
      + rewrite <- rendered_next. apply IH. lia.
      + replace (rendered w attempts) with (rendered w (attempts + 1 - 1))
          by (f_equal; lia).
        apply Hfails. lia. }
  destruct (Hloop max_attempts 0%nat) as [msgs Hexit];
    [unfold max_attempts; lia|].
  cbn [rendered] in Hexit.
  unfold script, request_question.
  rewrite Hfin, Hnone, Hreq. cbn [negb Py.is_none andb].
  apply Z.ltb_lt in Hlt. rewrite Hlt, Hexit. by split.
Qed.

Lemma unhashable_text_stops_run_witness :
  ended (script list_text initial_state) = Uncaught /\
  state_after (script list_text initial_state) =
    set_question_requested true initial_state.
Proof.
  apply (unhashable_text_stops_run list_text initial_state 1
           (PyDict (Py.dict_set (tf_question "Falso") "question"
                      (PyList [PyStr "¿Es el vacío un conjunto?"])))
           (PyList [PyStr "¿Es el vacío un conjunto?"]));
    try reflexivity; try lia.
Defined.

Lemma show_question_requested (w : widgets) (s : SessionState) (msgs : list ui) :
  question_requested s = false ->
  question_requested (state_after (show_question w s msgs)) = false.
Proof.
  intros Hreq. unfold show_question, score_answer.
  repeat match goal with
         | |- context [match ?x with _ => _ end] => destruct x
         end; cbn; exact Hreq || reflexivity.
Qed.

(** X11: [question_requested] is left set only by a run that an uncaught
    exception stops: a run that starts with the flag clear and ends by
    rerunning or by reaching the end of the script leaves it clear. *)
Theorem requested_flag_set_by_exception (w : widgets) (s : SessionState) :
  question_requested s = false ->
  question_requested (state_after (script w s)) = true ->
  ended (script w s) = Uncaught /\
  state_after (script w s) = set_question_requested true s.
Proof.
  intros Hreq. unfold script.
  destruct (quiz_finished s) eqn:Hfin; cbn [negb].
  - unfold show_results. destruct (st_button _ _ _); cbn; congruence.
  - unfold request_question. rewrite Hreq. cbn [negb]. rewrite andb_true_r.
    destruct (Py.is_none (current_question s)) eqn:Hnone.
    + destruct (total_questions s <? max_questions s).
      * pose proof (generation_loop_cases w max_attempts 0
                      (set_question_requested true s) []) as Hloop.
        destruct (generation_loop _ _ _ _ _) as [q s' n msgs|s' n msgs].
        -- destruct (Py.truthy q); [cbn; congruence|].
           rewrite show_question_requested by reflexivity. discriminate.
        -- destruct Hloop as [-> _]. by split.
      * rewrite Hfin. cbn [negb]. rewrite andb_true_r.
        destruct (total_questions s =? max_questions s); [cbn; congruence|].
        rewrite show_question_requested by done. discriminate.
    + rewrite show_question_requested by done. discriminate.
Qed.

Lemma requested_flag_set_by_exception_witness :
  ended (script list_text initial_state) = Uncaught /\
  state_after (script list_text initial_state) =
    set_question_requested true initial_state.
Proof.
  apply (requested_flag_set_by_exception list_text initial_state); reflexivity.
Defined.

(** ** What a run can and cannot change *)

(** X12: once an answer is sent, it is scored once. In a state showing the
    feedback, a run changes the session state only by the click on
    "Siguiente Pregunta" when answers remain to be given, or on "Ver
    Resultados Finales" when none does; any other run, a second click on
    "Enviar Respuesta" included, leaves both counters and everything else
    as they are. *)
Theorem feedback_left_by_its_button (w : widgets) (s : SessionState) :
  quiz_finished s = false ->
  Py.truthy (current_question s) = true ->
  submitted s = true ->
  state_after (script w s) = s \/
  (clicked w = Some SiguientePregunta /\
   total_questions s < max_questions s /\
   state_after (script w s) = next_question s) \/
  (clicked w = Some VerResultadosFinales /\
   max_questions s <= total_questions s /\
   state_after (script w s) = view_results s).
Proof.
  intros Hfin Hq Hsub. pose proof (script_step w s) as Hstep.
  set (s' := state_after (script w s)) in *. clearbody s'.
  pose proof (truthy_not_none _ Hq) as Hne.
  destruct Hstep; try congruence; auto.
Qed.

Lemma feedback_left_by_its_button_witness :
  state_after (script (choose "a" (Some EnviarRespuesta)) feedback_state) =
    feedback_state \/
  (clicked (choose "a" (Some EnviarRespuesta)) = Some SiguientePregunta /\
   total_questions feedback_state < max_questions feedback_state /\
   state_after (script (choose "a" (Some EnviarRespuesta)) feedback_state) =
     next_question feedback_state) \/
  (clicked (choose "a" (Some EnviarRespuesta)) = Some VerResultadosFinales /\
   max_questions feedback_state <= total_questions feedback_state /\
   state_after (script (choose "a" (Some EnviarRespuesta)) feedback_state) =
     view_results feedback_state).
Proof.
  apply (feedback_left_by_its_button (choose "a" (Some EnviarRespuesta))
           feedback_state); vm_compute; reflexivity.
Defined.

(** X13: no run changes [max_questions]; and while the quiz is not
    finished nothing is taken back: a run adds at most one to
    [total_questions], adds to [correct_count] only what it adds to
    [total_questions], and leaves the history as it was or with one text
    appended. *)
Theorem run_never_takes_back (w : widgets) (s : SessionState) :
  max_questions (state_after (script w s)) = max_questions s /\
  (quiz_finished s = false ->
   total_questions s <= total_questions (state_after (script w s)) <=
     total_questions s + 1 /\
   correct_count s <= correct_count (state_after (script w s)) /\
   correct_count (state_after (script w s)) - correct_count s <=
     total_questions (state_after (script w s)) - total_questions s /\
   (asked_questions_set (state_after (script w s)) = asked_questions_set s \/
    exists text,
      asked_questions_set (state_after (script w s)) =
      asked_questions_set s ++ [text])).
Proof.
  pose proof (script_step w s) as Hstep.
  set (s' := state_after (script w s)) in *. clearbody s'.
  destruct Hstep as [ | n q text | | | | correct_answer | | | | Hfin ];
    (split; [reflexivity || (unfold score_answer; cbn;
                              by destruct (Py.eq _ _))|]);
    intros Hnot; try congruence;
    try (cbn; repeat split; try lia; by left).
  - cbn. repeat split; try lia. right. by exists text.
  - unfold score_answer. cbn.
    destruct (Py.eq (radio w) correct_answer); cbn;
      repeat split; try lia; by left.
Qed.

Lemma run_never_takes_back_witness :
  total_questions showing_state <=
    total_questions
      (state_after (script (choose "b" (Some EnviarRespuesta)) showing_state)) <=
    total_questions showing_state + 1 /\
  correct_count showing_state <=
    correct_count
      (state_after (script (choose "b" (Some EnviarRespuesta)) showing_state)) /\
  correct_count
    (state_after (script (choose "b" (Some EnviarRespuesta)) showing_state)) -
    correct_count showing_state <=
  total_questions
    (state_after (script (choose "b" (Some EnviarRespuesta)) showing_state)) -
    total_questions showing_state /\
  (asked_questions_set
     (state_after (script (choose "b" (Some EnviarRespuesta)) showing_state)) =
   asked_questions_set showing_state \/
   exists text,
     asked_questions_set
       (state_after (script (choose "b" (Some EnviarRespuesta)) showing_state)) =
     asked_questions_set showing_state ++ [text]).
Proof.
  apply (proj2 (run_never_takes_back (choose "b" (Some EnviarRespuesta))
                  showing_state)).
  reflexivity.
Defined.

(** X14: the model is called only when a question is due. When the quiz is
    finished, a question is stored, [question_requested] is set or no
    answer remains to be given, the run is the same whatever the model
    would answer and whatever the random draws: it depends on the click and
    on the radio only. *)
Theorem model_called_only_when_due (w w' : widgets) (s : SessionState) :
  clicked w = clicked w' ->
  radio w = radio w' ->
  quiz_finished s = true \/ current_question s <> PyNone \/
  question_requested s = true \/ max_questions s <= total_questions s ->
  script w s = script w' s.
Proof.
  intros Hclick Hradio Hnot. unfold script.
  destruct (quiz_finished s) eqn:Hfin; cbn [negb].
  - unfold show_results, st_button. by rewrite Hclick.
  - assert (Hshow : forall msgs, show_question w s msgs = show_question w' s msgs).
    { intros msgs. unfold show_question, st_button. by rewrite Hclick, Hradio. }
    unfold request_question.
    destruct (Py.is_none (current_question s) && negb (question_requested s))
      eqn:Hguard; [|apply Hshow].
    apply andb_true_iff in Hguard as [Hnone%is_none_true Hreq%negb_true_iff].
    destruct Hnot as [?|[?|[?|Hge]]]; try congruence.
    apply Z.ltb_ge in Hge. rewrite Hge.
    destruct (_ && _); [reflexivity | apply Hshow].
Qed.

Lemma model_called_only_when_due_witness :
  script (choose "a" (Some EnviarRespuesta)) showing_state =
  script {| clicked := Some EnviarRespuesta; radio := PyStr "a";
            model := fun _ => Parsed (question_number 5);
            rand := fun _ _ => 0%nat |} showing_state.
Proof.
  apply (model_called_only_when_due (choose "a" (Some EnviarRespuesta)) _
           showing_state); try reflexivity.
  right. left. discriminate.
Defined.

(** ** The finished quiz, the history and the question on display *)

(** X15: a finished quiz has exactly ten answers and ten asked texts, a
    score between 0 and 10, and nothing left from the last question: no
    current question, no selected answer, no feedback, and both flags
    [submitted] and [question_requested] clear. *)
Theorem finished_state_shape (s : SessionState) :
  reachable s ->
  quiz_finished s = true ->
  s = {| current_question := PyNone;
         question_requested := false;
         user_answer := PyNone;
         submitted := false;
         feedback := PyNone;
         correct_count := correct_count s;
         total_questions := 10;
         max_questions := 10;
         quiz_finished := true;
         asked_questions_set := asked_questions_set s |} /\
  0 <= correct_count s <= 10 /\
  length (asked_questions_set s) = 10%nat.
Proof.
  intros Hreach Hfin.
  destruct (reachable_invariant s Hreach)
    as [Hmax Hscore Htotal Hfinished _ _ _ Hasked].
  destruct (more_finished s (reachable_invariant_more s Hreach) Hfin)
    as (Hanswer & Hsub & Hfeedback & Hreq).
  destruct (Hfinished Hfin) as [Hten Hnone].
  rewrite Hnone in Hasked. cbn in Hasked.
  split; [|split; lia].
  destruct s; cbn in *. by subst.
Qed.

Lemma finished_state_shape_witness :
  finished_state =
    {| current_question := PyNone;
       question_requested := false;
       user_answer := PyNone;
       submitted := false;
       feedback := PyNone;
       correct_count := correct_count finished_state;
       total_questions := 10;
       max_questions := 10;
       quiz_finished := true;
       asked_questions_set := asked_questions_set finished_state |} /\
  0 <= correct_count finished_state <= 10 /\
  length (asked_questions_set finished_state) = 10%nat.
Proof.
  apply (finished_state_shape finished_state).
  - apply reachable_play, reachable_initial.
  - vm_compute. reflexivity.
Defined.

(** X16: in every reachable state the history is a set of hashable values:
    no two of its texts are equal, so no text is asked twice between two
    restarts; and it holds one text for each answered question, plus one
    while a question waits for its answer. *)
Theorem history_texts_distinct (s : SessionState) :
  reachable s ->
  distinct_texts (asked_questions_set s) /\
  Forall (fun text => Py.hashable text = true) (asked_questions_set s) /\
  Z.of_nat (length (asked_questions_set s)) =
    total_questions s +
    (if Py.is_none (current_question s) || submitted s then 0 else 1).
Proof.
  intros Hreach.
  pose proof (reachable_invariant_more s Hreach) as Hmore.
  split; [exact (more_distinct s Hmore)|].
  split; [exact (more_hashable s Hmore)|].
  exact (inv_asked s (reachable_invariant s Hreach)).
Qed.

Lemma history_texts_distinct_witness :
  distinct_texts (asked_questions_set finished_state) /\
  Forall (fun text => Py.hashable text = true) (asked_questions_set finished_state) /\
  Z.of_nat (length (asked_questions_set finished_state)) =
    total_questions finished_state +
    (if Py.is_none (current_question finished_state) || submitted finished_state
     then 0 else 1).
Proof.
  apply (history_texts_distinct finished_state).
  apply reachable_play, reachable_initial.
Defined.

Lemma script_submit (w : widgets) (s : SessionState)
    (text options correct_answer : pyval) :
  quiz_finished s = false ->
  submitted s = false ->
  Py.subscript (current_question s) "question" = Some text ->
  Py.subscript (current_question s) "options" = Some options ->
  Py.subscript (current_question s) "answer" = Some correct_answer ->
  radio w <> PyNone ->
  clicked w = Some EnviarRespuesta ->
  state_after (script w s) =
    score_answer correct_answer
      (set_submitted true (set_user_answer (radio w) s)).
Proof.
  intros Hfin Hsub Htext Hoptions Hanswer Hradio Hclick.
  unfold script, request_question. rewrite Hfin. cbn [negb].
  replace (Py.is_none (current_question s)) with false
    by (by destruct (current_question s)).
  cbn [andb]. unfold show_question, st_button.
  rewrite Hsub, Hclick. cbn [negb].
  rewrite (subscript_truthy _ _ _ Htext), Htext, Hoptions, Hanswer.
  rewrite bool_decide_eq_true_2 by reflexivity.
  replace (Py.is_none (radio w)) with false by (by destruct (radio w)).
  reflexivity.
Qed.

(** X17: a multiple-choice question on display whose answer is a string
    can be answered correctly: in a reachable state that shows a question of
    type ["mc"] with a string for answer, that string is one of the options
    shown, and selecting it and clicking "Enviar Respuesta" adds one to
    [correct_count] and stores the feedback for a correct answer. (The
    statement is about strings: [in] on line 98 finds a value by identity
    or by [==], the comparison of line 234 is [==] alone, and the two agree
    on strings.) *)
Theorem displayed_mc_can_be_answered (s : SessionState) (type : pyval)
    (correct_answer : string) :
  reachable s ->
  quiz_finished s = false ->
  submitted s = false ->
  Py.subscript (current_question s) "type" = Some type ->
  Py.eq type (PyStr "mc") = true ->
  Py.subscript (current_question s) "answer" = Some (PyStr correct_answer) ->
  exists options,
    Py.subscript (current_question s) "options" = Some (PyList options) /\
    PyStr correct_answer ∈ options /\
    forall w : widgets,
      radio w = PyStr correct_answer ->
      clicked w = Some EnviarRespuesta ->
      correct_count (state_after (script w s)) = correct_count s + 1 /\
      total_questions (state_after (script w s)) = total_questions s + 1 /\
      feedback (state_after (script w s)) = PyStr correcto.
Proof.
  intros Hreach Hfin Hsub Htype Hmc Hanswer.
  assert (Hq : current_question s <> PyNone).
  { intros Hnone. by rewrite Hnone in Htype. }
  destruct (more_answerable s (reachable_invariant_more s Hreach) Hq type Htype Hmc)
    as (options & answer & Hoptions & Hanswer' & Hin).
  rewrite Hanswer in Hanswer'. injection Hanswer' as <-.
  destruct (inv_question s (reachable_invariant s Hreach) Hq)
    as (text & _ & _ & Htext & _).
  apply in_list_elem_of in Hin as (choice & Hchoice & Heq).
  apply eq_str_r in Heq as ->.
  exists options. split; [exact Hoptions|]. split; [exact Hchoice|].
  intros w Hradio Hclick.
  assert (Hne : radio w <> PyNone) by (by rewrite Hradio).
  rewrite (script_submit w s text (PyList options) (PyStr correct_answer))
    by done.
  unfold score_answer. cbn [user_answer set_submitted set_user_answer].
  rewrite Hradio.
  replace (Py.eq (PyStr correct_answer) (PyStr correct_answer)) with true
    by (symmetry; by apply eq_str_r).
  by cbn.
Qed.

Lemma displayed_mc_can_be_answered_witness :
  exists options,
    Py.subscript (current_question showing_state) "options" =
      Some (PyList options) /\
    PyStr "a" ∈ options /\
    forall w : widgets,
      radio w = PyStr "a" ->
      clicked w = Some EnviarRespuesta ->
      correct_count (state_after (script w showing_state)) =
        correct_count showing_state + 1 /\
      total_questions (state_after (script w showing_state)) =
        total_questions showing_state + 1 /\
      feedback (state_after (script w showing_state)) = PyStr correcto.
Proof.
  apply (displayed_mc_can_be_answered showing_state (PyStr "mc") "a");
    try reflexivity.
  apply reachable_play, reachable_initial.
Defined.

(** ** More on the cleaning of the response text *)

Example clean_fenced :
  clean_json_text (String "010" "```json" ++ String "010" "{}" ++ String "010" "```")
  = "{}"%string.
Proof. vm_compute. reflexivity. Qed.

Section Strip.

Variable pats : list (list ascii).
Hypothesis pats_nonempty : Forall (fun p => p <> []) pats.
Hypothesis pats_prefix_free :
  forall p q r, p ∈ pats -> q ∈ pats -> Text.after_prefix p q = Some r -> p = q.

Lemma after_prefix_Some (p s r : list ascii) :
  Text.after_prefix p s = Some r <-> s = p ++ r.
Proof.
  revert s. induction p as [|a p IH]; intros s; cbn.
  - split; congruence.
  - destruct s as [|b s]; [split; discriminate|].
    destruct (Ascii.eqb_spec a b) as [->|Hne].
    + rewrite IH. split; [intros ->; reflexivity | by intros [= ->]].
    + split; [discriminate | intros [= <- _]; done].
Qed.

Lemma after_any_Some (s r : list ascii) :
  Text.after_any pats s = Some r -> exists p, p ∈ pats /\ s = p ++ r.
Proof using Type.
  clear pats_nonempty pats_prefix_free.
  induction pats as [|p ps IH]; cbn [Text.after_any]; [discriminate|].
  destruct (Text.after_prefix p s) as [rest|] eqn:Hp.
  - intros [= ->]. exists p. split; [left | by apply after_prefix_Some].
  - intros (q & Hq & ->)%IH. exists q. split; [by right | reflexivity].
Qed.

Lemma after_any_None (s : list ascii) (p r : list ascii) :
  Text.after_any pats s = None -> p ∈ pats -> s <> p ++ r.
Proof using Type.
  clear pats_nonempty pats_prefix_free.
  induction pats as [|q ps IH]; cbn [Text.after_any];
    [by intros _ ?%elem_of_nil|].
  destruct (Text.after_prefix q s) as [rest|] eqn:Hq; [discriminate|].
  intros Hnone [->|Hin]%elem_of_cons.
  - intros Heq%after_prefix_Some. congruence.
  - by apply IH.
Qed.

Lemma lstrip_fuel_spec (fuel : nat) (s : list ascii) :
  (length s <= fuel)%nat ->
  exists chars,
    Forall (fun c => c ∈ pats) chars /\
    s = concat chars ++ Text.lstrip_fuel pats fuel s /\
    Text.after_any pats (Text.lstrip_fuel pats fuel s) = None.
Proof using pats_nonempty.
  revert s. induction fuel as [|fuel IH]; intros s Hlen; cbn.
  - exists []. destruct s; [|cbn in Hlen; lia].
    repeat split; [constructor|].
    destruct (Text.after_any pats []) as [r|] eqn:Hany; [|reflexivity].
    apply after_any_Some in Hany as (p & Hp & Heq).
    rewrite Forall_forall in pats_nonempty.
    destruct p; [by apply pats_nonempty in Hp | discriminate].
  - destruct (Text.after_any pats s) as [rest|] eqn:Hany.
    + apply after_any_Some in Hany as (p & Hp & ->).
      assert (p <> []) by (rewrite Forall_forall in pats_nonempty; auto).
      destruct (IH rest) as (chars & Hchars & Heq & Hnone).
      { rewrite length_app in Hlen. destruct p; [done|]. cbn in Hlen. lia. }
      exists (p :: chars). repeat split; [by constructor| |exact Hnone].
      cbn. rewrite <- app_assoc. by rewrite <- Heq.
    + exists []. repeat split; [constructor | exact Hany].
Qed.

Lemma stripped_unique (chars chars' : list (list ascii)) (t t' : list ascii) :
  Forall (fun c => c ∈ pats) chars ->
  Forall (fun c => c ∈ pats) chars' ->
  concat chars ++ t = concat chars' ++ t' ->
  Text.after_any pats t = None ->
  Text.after_any pats t' = None ->
  t = t'.
Proof using pats_prefix_free.
  intros Hchars. revert chars'.
  induction Hchars as [|p chars Hp Hchars IH]; intros chars' Hchars' Heq Ht Ht'.
  - destruct Hchars' as [|q chars' Hq _]; [exact Heq|].
    cbn in Heq. rewrite <- app_assoc in Heq.
    by destruct (after_any_None t q (concat chars' ++ t') Ht Hq).
  - destruct Hchars' as [|q chars' Hq Hchars'].
    + cbn in Heq. rewrite <- app_assoc in Heq. symmetry in Heq.
      by destruct (after_any_None t' p (concat chars ++ t) Ht' Hp).
    + cbn in Heq. rewrite <- !app_assoc in Heq.
      assert (p = q) as <-.
      { destruct (app_eq_inv _ _ _ _ Heq) as [(k & -> & _)|(k & -> & _)].
        - symmetry. apply (pats_prefix_free q (q ++ k) k); auto.
          by apply after_prefix_Some.
        - apply (pats_prefix_free p (p ++ k) k); auto.
          by apply after_prefix_Some. }
      apply app_inv_head in Heq. by apply (IH chars').
Qed.

Lemma lstrip_by_spec (s : list ascii) :
  exists chars,
    Forall (fun c => c ∈ pats) chars /\
    s = concat chars ++ Text.lstrip_by pats s /\
    Text.after_any pats (Text.lstrip_by pats s) = None.
Proof using pats_nonempty. by apply lstrip_fuel_spec. Qed.

Lemma lstrip_by_spaces (chars : list (list ascii)) (t : list ascii) :
  Forall (fun c => c ∈ pats) chars ->
  Text.after_any pats t = None ->
  Text.lstrip_by pats (concat chars ++ t) = t.
Proof using pats_nonempty pats_prefix_free.
  intros Hchars Ht.
  destruct (lstrip_by_spec (concat chars ++ t)) as (chars' & Hchars' & Heq & Hnone).
  symmetry. by apply (stripped_unique chars chars').
Qed.

Lemma after_any_None_prefix (s k : list ascii) :
  Text.after_any pats (s ++ k) = None -> Text.after_any pats s = None.
Proof using Type.
  intros Hnone. destruct (Text.after_any pats s) as [r|] eqn:Hany; [|reflexivity].
  apply after_any_Some in Hany as (p & Hp & ->).
  rewrite <- app_assoc in Hnone.
  by destruct (after_any_None _ p (r ++ k) Hnone Hp).
Qed.

End Strip.

Lemma prefix_free_spec (pats : list (list ascii)) :
  prefix_free pats = true ->
  forall p q r, p ∈ pats -> q ∈ pats -> Text.after_prefix p q = Some r -> p = q.
Proof.
  unfold prefix_free. rewrite forallb_forall.
  intros Hfree p q r Hp%list_elem_of_In Hq%list_elem_of_In Hpre.
  specialize (Hfree p Hp). rewrite forallb_forall in Hfree.
  specialize (Hfree q Hq). rewrite Hpre in Hfree.
  destruct r; [|discriminate].
  apply after_prefix_Some in Hpre. by rewrite app_nil_r in Hpre.
Qed.

Lemma none_starts_with_nonempty (c : ascii) (pats : list (list ascii)) :
  none_starts_with c pats = true -> Forall (fun p => p <> []) pats.
Proof.
  unfold none_starts_with. rewrite forallb_forall, Forall_forall.
  intros Hnone p Hp%list_elem_of_In ->. by apply Hnone in Hp.
Qed.

Lemma none_starts_with_None (c : ascii) (pats : list (list ascii))
    (s : list ascii) :
  none_starts_with c pats = true -> Text.after_any pats (c :: s) = None.
Proof.
  intros Hnone.
  destruct (Text.after_any pats (c :: s)) as [r|] eqn:Hany; [|reflexivity].
  apply after_any_Some in Hany as (p & Hp%list_elem_of_In & Heq).
  unfold none_starts_with in Hnone. rewrite forallb_forall in Hnone.
  apply Hnone in Hp. destruct p as [|a p]; [discriminate|].
  injection Heq as <- _. by rewrite Ascii.eqb_refl in Hp.
Qed.

Lemma whitespace_nonempty : Forall (fun p => p <> []) Text.whitespace.
Proof. apply (none_starts_with_nonempty "{"). vm_compute. reflexivity. Qed.

Lemma whitespace_prefix_free (p q r : list ascii) :
  p ∈ Text.whitespace -> q ∈ Text.whitespace ->
  Text.after_prefix p q = Some r -> p = q.
Proof. apply prefix_free_spec. vm_compute. reflexivity. Qed.

Lemma whitespace_rev_nonempty :
  Forall (fun p => p <> []) (map reverse Text.whitespace).
Proof. apply (none_starts_with_nonempty "}"). vm_compute. reflexivity. Qed.

Lemma whitespace_rev_prefix_free (p q r : list ascii) :
  p ∈ map reverse Text.whitespace -> q ∈ map reverse Text.whitespace ->
  Text.after_prefix p q = Some r -> p = q.
Proof. apply prefix_free_spec. vm_compute. reflexivity. Qed.

(** Reversing a run of whitespace characters gives one. *)
Lemma reverse_concat_whitespace (chars : list (list ascii)) :
  Forall (fun c => c ∈ Text.whitespace) chars ->
  exists chars',
    Forall (fun c => c ∈ map reverse Text.whitespace) chars' /\
    reverse (concat chars) = concat chars'.
Proof.
  induction 1 as [|c chars Hc _ (chars' & Hchars' & Heq)].
  - by exists [].
  - exists (chars' ++ [reverse c]). split.
    + apply Forall_app. split; [exact Hchars'|].
      constructor; [|constructor]. apply list_elem_of_fmap. by exists c.
    + cbn [concat]. rewrite reverse_app, Heq, concat_app. cbn [concat].
      by rewrite app_nil_r.
Qed.

Lemma concat_whitespace_reverse (chars' : list (list ascii)) :
  Forall (fun c => c ∈ map reverse Text.whitespace) chars' ->
  exists chars,
    Forall (fun c => c ∈ Text.whitespace) chars /\
    reverse (concat chars') = concat chars.
Proof.
  induction 1 as [|c chars' Hc _ (chars & Hchars & Heq)].
  - by exists [].
  - apply list_elem_of_fmap in Hc as (c0 & -> & Hc0).
    exists (chars ++ [c0]). split.
    + apply Forall_app. split; [exact Hchars|]. constructor; [done|constructor].
    + cbn [concat]. rewrite reverse_app, Heq, reverse_involutive, concat_app.
      cbn [concat]. by rewrite app_nil_r.
Qed.

(** What [strip] leaves: the text between two runs of whitespace, with no
    whitespace character at either end. *)
Lemma strip_spec (s : list ascii) :
  exists lead trail,
    Forall (fun c => c ∈ Text.whitespace) lead /\
    Forall (fun c => c ∈ Text.whitespace) trail /\
    s = concat lead ++ Text.strip s ++ concat trail /\
    Text.after_any Text.whitespace (Text.strip s) = None /\
    Text.after_any (map reverse Text.whitespace) (reverse (Text.strip s)) = None.
Proof.
  unfold Text.strip, Text.rstrip_by.
  destruct (lstrip_by_spec Text.whitespace whitespace_nonempty s)
    as (lead & Hlead & Hs & Hnone).
  set (l := Text.lstrip_by Text.whitespace s) in *.
  destruct (lstrip_by_spec (map reverse Text.whitespace)
              whitespace_rev_nonempty (reverse l))
    as (trail' & Htrail' & Hl & Hnone').
  set (r := Text.lstrip_by (map reverse Text.whitespace) (reverse l)) in *.
  destruct (concat_whitespace_reverse trail' Htrail') as (trail & Htrail & Hrev).
  assert (Hl' : l = reverse r ++ concat trail).
  { rewrite <- Hrev, <- reverse_app, <- Hl. by rewrite reverse_involutive. }
  exists lead, trail. repeat split; auto.
  - by rewrite <- Hl'.
  - apply (after_any_None_prefix _ _ (concat trail)). by rewrite <- Hl'.
  - by rewrite reverse_involutive.
Qed.

(** [strip] removes the whitespace around a text that has a first and a last
    character neither of which belongs to whitespace. *)
Lemma strip_spaces (lead trail : list (list ascii)) (t : list ascii) :
  Forall (fun c => c ∈ Text.whitespace) lead ->
  Forall (fun c => c ∈ Text.whitespace) trail ->
  (forall k, Text.after_any Text.whitespace (t ++ k) = None) ->
  (forall k, Text.after_any (map reverse Text.whitespace) (reverse t ++ k) = None) ->
  Text.strip (concat lead ++ t ++ concat trail) = t.
Proof.
  intros Hlead Htrail Hstart Hend. unfold Text.strip, Text.rstrip_by.
  rewrite (lstrip_by_spaces Text.whitespace whitespace_nonempty
             whitespace_prefix_free) by auto.
  destruct (reverse_concat_whitespace trail Htrail) as (trail' & Htrail' & Hrev).
  rewrite reverse_app, Hrev.
  rewrite (lstrip_by_spaces (map reverse Text.whitespace)
             whitespace_rev_nonempty whitespace_rev_prefix_free).
  - apply reverse_involutive.
  - exact Htrail'.
  - specialize (Hend []). by rewrite app_nil_r in Hend.
Qed.

(** [strip] on a text between two runs of whitespace, when the text starts
    with [c] and ends with [d], neither of which starts or ends a whitespace
    character. *)
Lemma strip_between (lead trail : list (list ascii)) (c d : ascii)
    (mid : list ascii) :
  Forall (fun c => c ∈ Text.whitespace) lead ->
  Forall (fun c => c ∈ Text.whitespace) trail ->
  none_starts_with c Text.whitespace = true ->
  none_starts_with d (map reverse Text.whitespace) = true ->
  Text.strip (concat lead ++ (c :: mid ++ [d]) ++ concat trail) =
  c :: mid ++ [d].
Proof.
  intros Hlead Htrail Hc Hd. apply strip_spaces; auto.
  - intros k. by apply none_starts_with_None.
  - intros k. rewrite app_comm_cons, reverse_snoc.
    by apply none_starts_with_None.
Qed.

Lemma startswith_app (p s : list ascii) : Text.startswith p (p ++ s) = true.
Proof.
  unfold Text.startswith.
  by rewrite (proj2 (after_prefix_Some p (p ++ s) s) eq_refl).
Qed.

Lemma endswith_app (p s : list ascii) : Text.endswith p (s ++ p) = true.
Proof. unfold Text.endswith. rewrite reverse_app. apply startswith_app. Qed.

Ltac list_norm :=
  unfold Text.fence, Text.fence_json, object_text;
  repeat first
    [ rewrite <- app_assoc | rewrite app_nil_r | progress (cbn [app concat]) ].

(** Rewrites the argument of the first [strip] of the goal as a text from
    [c] to [d] between the runs [lead] and [trail], and strips it. *)
Ltac strip_as lead trail c mid d :=
  match goal with
  | |- context [Text.strip ?x] =>
      replace x with (concat lead ++ (c :: mid ++ [d]) ++ concat trail)
        by (list_norm; reflexivity);
      rewrite (strip_between lead trail c d mid)
        by (auto; vm_compute; reflexivity)
  end.

Lemma clean_fenced_chars (lead w1 w2 trail : list (list ascii))
    (inner : list ascii) :
  Forall (fun c => c ∈ Text.whitespace) lead ->
  Forall (fun c => c ∈ Text.whitespace) w1 ->
  Forall (fun c => c ∈ Text.whitespace) w2 ->
  Forall (fun c => c ∈ Text.whitespace) trail ->
  Text.clean
    (concat lead ++ Text.fence_json ++ concat w1 ++ object_text inner ++
     concat w2 ++ Text.fence ++ concat trail) =
  object_text inner.
Proof.
  intros Hlead Hw1 Hw2 Htrail. unfold Text.clean.
  strip_as lead trail "`"%char
    (["`"; "`"; "j"; "s"; "o"; "n"]%char ++ concat w1 ++ object_text inner ++
     concat w2 ++ ["`"; "`"]%char) "`"%char.
  cbv zeta.
  replace ("`"%char :: (["`"; "`"; "j"; "s"; "o"; "n"]%char ++ concat w1 ++
             object_text inner ++ concat w2 ++ ["`"; "`"]%char) ++ ["`"%char])
    with (Text.fence_json ++ concat w1 ++ object_text inner ++ concat w2 ++
          Text.fence)
    by (list_norm; reflexivity).
  rewrite startswith_app.
  change 7%nat with (length Text.fence_json). rewrite drop_app_length.
  strip_as w1 (@nil (list ascii)) "{"%char
    (inner ++ ["}"%char] ++ concat w2 ++ ["`"; "`"]%char) "`"%char.
  replace ("{"%char :: (inner ++ ["}"%char] ++ concat w2 ++ ["`"; "`"]%char) ++
           ["`"%char])
    with ((object_text inner ++ concat w2) ++ Text.fence)
    by (list_norm; reflexivity).
  rewrite endswith_app, length_app.
  change (length Text.fence) with 3%nat.
  replace (length (object_text inner ++ concat w2) + 3 - 3)%nat
    with (length (object_text inner ++ concat w2)) by lia.
  rewrite take_app_length.
  strip_as (@nil (list ascii)) w2 "{"%char inner "}"%char.
  reflexivity.
Qed.

Lemma clean_bare_chars (lead trail : list (list ascii)) (inner : list ascii) :
  Forall (fun c => c ∈ Text.whitespace) lead ->
  Forall (fun c => c ∈ Text.whitespace) trail ->
  Text.clean (concat lead ++ object_text inner ++ concat trail) =
  object_text inner.
Proof.
  intros Hlead Htrail. unfold Text.clean.
  strip_as lead trail "{"%char inner "}"%char.
  cbv zeta.
  replace (Text.startswith Text.fence_json ("{"%char :: inner ++ ["}"%char]))
    with false by reflexivity.
  replace (Text.endswith Text.fence ("{"%char :: inner ++ ["}"%char]))
    with false; [reflexivity|].
  unfold Text.endswith. by rewrite app_comm_cons, reverse_snoc.
Qed.

Lemma startswith_json_whitespace (w : list (list ascii)) (rest : list ascii) :
  Forall (fun c => c ∈ Text.whitespace) w ->
  Text.startswith Text.fence_json
    (Text.fence ++ concat w ++ "{"%char :: rest) = false.
Proof.
  intros Hw. unfold Text.startswith, Text.fence, Text.fence_json.
  cbn [app Text.after_prefix]. rewrite !Ascii.eqb_refl.
  destruct Hw as [|p w Hp _]; [reflexivity|].
  assert (Hj : none_starts_with "j" Text.whitespace = true)
    by (vm_compute; reflexivity).
  unfold none_starts_with in Hj. rewrite forallb_forall in Hj.
  apply list_elem_of_In, Hj in Hp. destruct p as [|a p]; [discriminate|].
  cbn [concat app Text.after_prefix].
  rewrite Ascii.eqb_sym. by destruct (Ascii.eqb a "j").
Qed.

Lemma clean_plain_fence_chars (lead w1 w2 trail : list (list ascii))
    (inner : list ascii) :
  Forall (fun c => c ∈ Text.whitespace) lead ->
  Forall (fun c => c ∈ Text.whitespace) w1 ->
  Forall (fun c => c ∈ Text.whitespace) w2 ->
  Forall (fun c => c ∈ Text.whitespace) trail ->
  Text.clean
    (concat lead ++ Text.fence ++ concat w1 ++ object_text inner ++
     concat w2 ++ Text.fence ++ concat trail) =
  Text.fence ++ concat w1 ++ object_text inner.
Proof.
  intros Hlead Hw1 Hw2 Htrail. unfold Text.clean.
  strip_as lead trail "`"%char
    (["`"; "`"]%char ++ concat w1 ++ object_text inner ++
     concat w2 ++ ["`"; "`"]%char) "`"%char.
  cbv zeta.
  replace ("`"%char :: (["`"; "`"]%char ++ concat w1 ++
             object_text inner ++ concat w2 ++ ["`"; "`"]%char) ++ ["`"%char])
    with (Text.fence ++ concat w1 ++ "{"%char ::
          (inner ++ ["}"%char] ++ concat w2 ++ Text.fence))
    by (list_norm; reflexivity).
  rewrite startswith_json_whitespace by done.
  replace (Text.fence ++ concat w1 ++ "{"%char ::
           (inner ++ ["}"%char] ++ concat w2 ++ Text.fence))
    with ((Text.fence ++ concat w1 ++ object_text inner ++ concat w2) ++
          Text.fence)
    by (list_norm; reflexivity).
  rewrite endswith_app, length_app.
  change (length Text.fence) with 3%nat.
  replace (length (Text.fence ++ concat w1 ++ object_text inner ++ concat w2)
           + 3 - 3)%nat
    with (length (Text.fence ++ concat w1 ++ object_text inner ++ concat w2))
    by lia.
  rewrite take_app_length.
  strip_as (@nil (list ascii)) w2 "`"%char
    (["`"; "`"]%char ++ concat w1 ++ "{"%char :: inner) "}"%char.
  list_norm. reflexivity.
Qed.

Lemma lstrip_by_id (pats : list (list ascii)) (s : list ascii) :
  Text.after_any pats s = None -> Text.lstrip_by pats s = s.
Proof.
  intros Hnone. unfold Text.lstrip_by.
  destruct (length s); cbn [Text.lstrip_fuel]; [reflexivity|].
  by rewrite Hnone.
Qed.

Lemma strip_strip (s : list ascii) : Text.strip (Text.strip s) = Text.strip s.
Proof.
  destruct (strip_spec s) as (_ & _ & _ & _ & _ & Hstart & Hend).
  unfold Text.strip at 1, Text.rstrip_by.
  rewrite (lstrip_by_id Text.whitespace) by exact Hstart.
  rewrite (lstrip_by_id (map reverse Text.whitespace)) by exact Hend.
  apply reverse_involutive.
Qed.

Lemma strip_infix (s : list ascii) :
  exists before after, s = before ++ Text.strip s ++ after.
Proof.
  destruct (strip_spec s) as (lead & trail & _ & _ & Heq & _).
  by exists (concat lead), (concat trail).
Qed.

(** The cleaning keeps one stretch of the text: it removes characters from
    the two ends only, and what it keeps has no whitespace around it. *)
Lemma clean_chars_trims (s : list ascii) :
  Text.strip (Text.clean s) = Text.clean s /\
  exists before after, s = before ++ Text.clean s ++ after.
Proof.
  unfold Text.clean. cbv zeta.
  destruct (strip_infix s) as (b0 & a0 & Hs).
  set (t0 := Text.strip s) in *.
  assert (H1 : exists t1,
             (if Text.startswith Text.fence_json t0
              then Text.strip (drop 7 t0) else t0) = t1 /\
             Text.strip t1 = t1 /\
             exists before after, s = before ++ t1 ++ after).
  { destruct (Text.startswith Text.fence_json t0).
    - eexists. split; [reflexivity|]. split; [apply strip_strip|].
      destruct (strip_infix (drop 7 t0)) as (b1 & a1 & Hd).
      exists (b0 ++ take 7 t0 ++ b1), (a1 ++ a0).
      rewrite Hs at 1. rewrite <- (take_drop 7 t0) at 1. rewrite Hd at 1.
      by rewrite <- !app_assoc.
    - exists t0. split; [reflexivity|]. split; [apply strip_strip|].
      by exists b0, a0. }
  destruct H1 as (t1 & -> & Hstripped & b1 & a1 & Hs1).
  destruct (Text.endswith Text.fence t1).
  - split; [apply strip_strip|].
    destruct (strip_infix (take (length t1 - 3) t1)) as (b2 & a2 & Ht).
    exists (b1 ++ b2), (a2 ++ drop (length t1 - 3) t1 ++ a1).
    rewrite Hs1 at 1. rewrite <- (take_drop (length t1 - 3) t1) at 1.
    rewrite Ht at 1. by rewrite <- !app_assoc.
  - split; [exact Hstripped|]. by exists b1, a1.
Qed.

Lemma bytes_app (a b : string) :
  list_ascii_of_string (a ++ b) =
  list_ascii_of_string a ++ list_ascii_of_string b.
Proof. induction a as [|c a IH]; cbn; [reflexivity | by rewrite IH]. Qed.

Lemma bytes_object (inner : string) :
  list_ascii_of_string ("{" ++ inner ++ "}") =
  object_text (list_ascii_of_string inner).
Proof. cbn. by rewrite bytes_app. Qed.

(** X18: a JSON object wrapped in a ["```json"] fence, with any whitespace
    around the text, after the opening fence and before the closing one, is
    handed to [json.loads] as the bare object, whatever is between its
    braces. *)
Theorem clean_fenced_object (lead w1 w2 trail inner : string) :
  spaces lead -> spaces w1 -> spaces w2 -> spaces trail ->
  clean_json_text
    (lead ++ "```json" ++ w1 ++ ("{" ++ inner ++ "}") ++ w2 ++ "```" ++ trail) =
  ("{" ++ inner ++ "}")%string.
Proof.
  intros (cl & Hcl & Hl) (c1 & Hc1 & H1) (c2 & Hc2 & H2) (ct & Hct & Ht).
  unfold clean_json_text.
  rewrite !bytes_app, Hl, H1, H2, Ht. cbn [list_ascii_of_string].
  match goal with
  | |- context [Text.clean ?x] =>
      replace x
        with (concat cl ++ Text.fence_json ++ concat c1 ++
              object_text (list_ascii_of_string inner) ++
              concat c2 ++ Text.fence ++ concat ct)
        by (list_norm; reflexivity)
  end.
  rewrite clean_fenced_chars by done.
  rewrite <- bytes_object. apply string_of_list_ascii_of_string.
Qed.

(** Space, tab and newline are whitespace, and so are their runs. *)
Lemma spaces_newline : spaces (String "010" "").
Proof.
  exists [["010"%char]]. split; [|reflexivity].
  constructor; [|constructor]. vm_compute. do 1 right. left.
Qed.

Lemma spaces_empty : spaces "".
Proof. by exists []. Qed.

Lemma clean_fenced_object_witness :
  clean_json_text
    ("" ++ "```json" ++ String "010" "" ++ ("{" ++ " [1, 2] " ++ "}") ++
     String "010" "" ++ "```" ++ String "010" "") =
  ("{" ++ " [1, 2] " ++ "}")%string.
Proof.
  apply (clean_fenced_object "" (String "010" "") (String "010" "")
           (String "010" "") " [1, 2] ");
    auto using spaces_newline, spaces_empty.
Defined.

(** X19: a JSON object with no fence is only stripped of the whitespace
    around it: whatever is between its braces, fences included, reaches
    [json.loads] untouched. *)
Theorem clean_bare_object (lead trail inner : string) :
  spaces lead -> spaces trail ->
  clean_json_text (lead ++ ("{" ++ inner ++ "}") ++ trail) =
  ("{" ++ inner ++ "}")%string.
Proof.
  intros (cl & Hcl & Hl) (ct & Hct & Ht). unfold clean_json_text.
  rewrite !bytes_app, Hl, Ht. cbn [list_ascii_of_string].
  match goal with
  | |- context [Text.clean ?x] =>
      replace x
        with (concat cl ++ object_text (list_ascii_of_string inner) ++ concat ct)
        by (list_norm; reflexivity)
  end.
  rewrite clean_bare_chars by done.
  rewrite <- bytes_object. apply string_of_list_ascii_of_string.
Qed.

Lemma clean_bare_object_witness :
  clean_json_text
    (String "010" "" ++ ("{" ++ "```json" ++ "}") ++ String "010" "") =
  ("{" ++ "```json" ++ "}")%string.
Proof.
  apply (clean_bare_object (String "010" "") (String "010" "") "```json");
    apply spaces_newline.
Defined.

(** X20: only a fence tagged ["json"] is removed at the start. For an
    object between two plain ["```"] fences the closing fence is removed and
    the opening one is kept, so the text handed to [json.loads] starts with
    the fence. *)
Theorem clean_plain_fence_kept (lead w1 w2 trail inner : string) :
  spaces lead -> spaces w1 -> spaces w2 -> spaces trail ->
  clean_json_text
    (lead ++ "```" ++ w1 ++ ("{" ++ inner ++ "}") ++ w2 ++ "```" ++ trail) =
  ("```" ++ w1 ++ ("{" ++ inner ++ "}"))%string.
Proof.
  intros (cl & Hcl & Hl) (c1 & Hc1 & H1) (c2 & Hc2 & H2) (ct & Hct & Ht).
  unfold clean_json_text.
  rewrite !bytes_app, Hl, H1, H2, Ht. cbn [list_ascii_of_string].
  match goal with
  | |- context [Text.clean ?x] =>
      replace x
        with (concat cl ++ Text.fence ++ concat c1 ++
              object_text (list_ascii_of_string inner) ++
              concat c2 ++ Text.fence ++ concat ct)
        by (list_norm; reflexivity)
  end.
  rewrite clean_plain_fence_chars by done.
  rewrite <- H1, <- bytes_object.
  change Text.fence with (list_ascii_of_string "```").
  rewrite <- !bytes_app. apply string_of_list_ascii_of_string.
Qed.

Lemma clean_plain_fence_kept_witness :
  clean_json_text
    ("" ++ "```" ++ String "010" "" ++ ("{" ++ "" ++ "}") ++ String "010" "" ++
     "```" ++ "") =
  ("```" ++ String "010" "" ++ ("{" ++ "" ++ "}"))%string.
Proof.
  apply (clean_plain_fence_kept "" (String "010" "") (String "010" "") "" "");
    auto using spaces_newline, spaces_empty.
Defined.

(** X21: the cleaning only trims: the text handed to [json.loads] is one
    stretch of the response text, with characters removed from its two ends
    only, and it neither starts nor ends with whitespace, so stripping it
    again changes nothing. *)
Theorem clean_json_text_trims (response_text : string) :
  (exists before after,
      response_text = (before ++ clean_json_text response_text ++ after)%string) /\
  list_ascii_of_string (clean_json_text response_text) =
    Text.strip (list_ascii_of_string (clean_json_text response_text)).
Proof.
  unfold clean_json_text.
  destruct (clean_chars_trims (list_ascii_of_string response_text))
    as (Hstrip & before & after & Heq).
  split.
  - exists (string_of_list_ascii before), (string_of_list_ascii after).
    rewrite <- (string_of_list_ascii_of_string response_text) at 1.
    rewrite Heq at 1.
    rewrite <- (string_of_list_ascii_of_string (_ ++ _)%string).
    by rewrite !bytes_app, !list_ascii_of_string_of_list_ascii.
  - by rewrite list_ascii_of_string_of_list_ascii, Hstrip.
Qed.

(** ** How the quiz finishes *)

Lemma awaiting_step (w : widgets) (s s' : SessionState) :
  invariant s ->
  (quiz_finished s = false -> current_question s = PyNone ->
   total_questions s < max_questions s) ->
  step w s s' ->
  quiz_finished s' = false -> current_question s' = PyNone ->
  total_questions s' < max_questions s'.
Proof.
  intros Hinv Hs Hstep.
  destruct Hstep as
    [ | n q text Hfin Hnone Hr Hlt Hn (_ & Hq%truthy_not_none & _)
      | Hfin Hnone Hr Hlt
      | Hfin Hnone Hr Heq
      | Hfin Hq%truthy_not_none Hsub
      | correct_answer Hfin Hq%truthy_not_none Hsub Hclick Hradio Hanswer
      | Hfin Hq%truthy_not_none Hsub Hclick Hanswer
      | Hfin Hq Hsub Hclick Hlt
      | Hfin Hq Hsub Hclick Hge
      | Hfin Hclick ]; cbn; auto; try congruence.
  - unfold score_answer. cbn.
    destruct (Py.eq (radio w) correct_answer); cbn; congruence.
  - intros _ _. rewrite (inv_max s Hinv). lia.
Qed.

Lemma reachable_awaiting (s : SessionState) :
  reachable s ->
  quiz_finished s = false -> current_question s = PyNone ->
  total_questions s < max_questions s.
Proof.
  induction 1 as [|w s Hreach IH]; [by cbn|].
  apply (awaiting_step w s); auto using reachable_invariant, script_step.
Qed.

(** X22: the branch of lines 199-207, which finishes the quiz on a render,
    never runs: in a reachable state with no question stored and the quiz
    not finished, answers remain to be given. The quiz finishes in one way
    only, the click on "Ver Resultados Finales" in the feedback of the
    tenth answer. *)
Theorem quiz_finishes_by_click_only (w : widgets) (s : SessionState) :
  reachable s ->
  quiz_finished s = false ->
  (current_question s = PyNone -> total_questions s < max_questions s) /\
  (quiz_finished (state_after (script w s)) = true ->
   clicked w = Some VerResultadosFinales /\
   submitted s = true /\
   total_questions s = 10 /\
   state_after (script w s) = view_results s).
Proof.
  intros Hreach Hfin.
  pose proof (reachable_awaiting s Hreach Hfin) as Hawait.
  split; [exact Hawait|].
  pose proof (reachable_invariant s Hreach) as Hinv.
  pose proof (script_step w s) as Hstep.
  set (s' := state_after (script w s)) in *. clearbody s'.
  destruct Hstep as
    [ | n q text | | Hf Hnone Hr Heq | | correct_answer | | | Hf Hq Hsub Hclick Hge
      | ]; cbn; try congruence.
  - specialize (Hawait Hnone). lia.
  - unfold score_answer. cbn.
    destruct (Py.eq (radio w) correct_answer); cbn; congruence.
  - intros _. repeat split; auto.
    pose proof (inv_total s Hinv). pose proof (inv_max s Hinv). lia.
Qed.

Lemma quiz_finishes_by_click_only_witness :
  clicked (click VerResultadosFinales) = Some VerResultadosFinales /\
  submitted last_feedback_state = true /\
  total_questions last_feedback_state = 10 /\
  state_after (script (click VerResultadosFinales) last_feedback_state) =
    view_results last_feedback_state.
Proof.
  apply (quiz_finishes_by_click_only (click VerResultadosFinales)
           last_feedback_state).
  - apply reachable_play, reachable_initial.
  - vm_compute. reflexivity.
  - vm_compute. reflexivity.
Defined.
